(** * Verification of [src/web/src/backend/kms.ts]

  A shallow embedding of the Amazon KMS helper functions of the developer
  portal ([kmsKeyPolicy], [createKMSKey], [getKMSKeyStatus],
  [signJWTWithKMSKey], [scheduleKeyDeletion]) together with the library
  functions they call (base64 / base64url encoding, [JSON.stringify],
  [Date.prototype.toISOString]), and the properties of the key-lifecycle
  specification stated over them.

  Conventions.
  - A JavaScript string is modelled by a [string], read as its UTF-8 bytes
    (so [Buffer.from(s)] is [list_byte_of_string s]).
  - A [Uint8Array] is a [list byte].
  - [undefined] is [None].
  - An [async] function is a computation in the monad [M] below: it threads
    the state of the outside world and an event trace, and ends either
    [Returned v] (promise fulfilled) or [Thrown e] (promise rejected). *)

From Stdlib Require Import ZArith NArith List String Ascii Bool Lia.
From Stdlib.Strings Require Import Byte.
Import ListNotations.

Local Open Scope string_scope.
Local Open Scope Z_scope.

Set Implicit Arguments.
Set Warnings "-register-all".

(* ================================================================== *)
(** * Strings *)
(* ================================================================== *)

Module Str.

(** [s.replace(/c/g, by)] for a one-character pattern. *)
Fixpoint replace_all (c : ascii) (by_ : string) (s : string) : string :=
  match s with
  | EmptyString => EmptyString
  | String a s' =>
      if Ascii.eqb a c then by_ ++ replace_all c by_ s'
      else String a (replace_all c by_ s')
  end.

(** Number of occurrences of a character. *)
Fixpoint count (c : ascii) (s : string) : nat :=
  match s with
  | EmptyString => 0%nat
  | String a s' => ((if Ascii.eqb a c then 1 else 0) + count c s')%nat
  end.

(** Every character satisfies [p]. *)
Fixpoint all (p : ascii -> bool) (s : string) : bool :=
  match s with
  | EmptyString => true
  | String a s' => p a && all p s'
  end.

(** [s.split(c)]: the maximal segments between occurrences of [c]. *)
Fixpoint split (c : ascii) (s : string) : list string :=
  match s with
  | EmptyString => [EmptyString]
  | String a s' =>
      if Ascii.eqb a c then EmptyString :: split c s'
      else match split c s' with
           | [] => [String a EmptyString]
           | seg :: segs => String a seg :: segs
           end
  end.

(** [Buffer.from(s)]: the bytes of a string. *)
Definition bytes (s : string) : list byte := list_byte_of_string s.

End Str.

(* ================================================================== *)
(** * Base64 (RFC 4648)

  [Buffer.prototype.toString("base64")] and jose's [base64url.encode] are
  library code; they are modelled here after RFC 4648 sections 4 and 5, the
  way jose implements the latter: the padded standard encoding, then
  ['='] removed, ['+'] replaced by ['-'] and ['/'] by ['_']. *)
(* ================================================================== *)

Module Base64.

Definition alphabet : string :=
  "ABCDEFGHIJKLMNOPQRSTUVWXYZabcdefghijklmnopqrstuvwxyz0123456789+/".

(** The character of a 6-bit value. *)
Definition char_of (n : N) : ascii :=
  match String.get (N.to_nat n) alphabet with
  | Some c => c
  | None => "="%char
  end.

(** The 6-bit value of a character of the standard alphabet. *)
Definition index_std (c : ascii) : option N :=
  let n := N_of_ascii c in
  if ((65 <=? n) && (n <=? 90))%N then Some (n - 65)%N
  else if ((97 <=? n) && (n <=? 122))%N then Some (n - 71)%N
  else if ((48 <=? n) && (n <=? 57))%N then Some (n + 4)%N
  else if (n =? 43)%N then Some 62%N
  else if (n =? 47)%N then Some 63%N
  else None.

(** The 6-bit value of a character of the URL-safe alphabet. *)
Definition index_url (c : ascii) : option N :=
  let n := N_of_ascii c in
  if (n =? 45)%N then Some 62%N
  else if (n =? 95)%N then Some 63%N
  else if ((n =? 43) || (n =? 47))%N then None
  else index_std c.

Definition b (x : byte) : N := Byte.to_N x.

(** Standard, padded encoding: three bytes give four characters. *)
Fixpoint encode (l : list byte) : string :=
  match l with
  | [] => EmptyString
  | [x] =>
      String (char_of (N.shiftr (b x) 2))
     (String (char_of (N.shiftl (N.land (b x) 3) 4))
     "==")
  | [x; y] =>
      String (char_of (N.shiftr (b x) 2))
     (String (char_of (N.lor (N.shiftl (N.land (b x) 3) 4) (N.shiftr (b y) 4)))
     (String (char_of (N.shiftl (N.land (b y) 15) 2))
     "="))
  | x :: y :: z :: rest =>
      String (char_of (N.shiftr (b x) 2))
     (String (char_of (N.lor (N.shiftl (N.land (b x) 3) 4) (N.shiftr (b y) 4)))
     (String (char_of (N.lor (N.shiftl (N.land (b y) 15) 2) (N.shiftr (b z) 6)))
     (String (char_of (N.land (b z) 63))
     (encode rest))))
  end.

(** The byte of a number below 256. *)
Definition byte_of (n : N) : byte :=
  match Byte.of_N n with
  | Some x => x
  | None => x00
  end.

(** Decoding of an unpadded text over the alphabet read by [index]:
    four characters give three bytes; a tail of two or three characters
    gives one or two bytes; a tail of one character is malformed. *)
Fixpoint decode_with (index : ascii -> option N) (fuel : nat) (s : string)
  : option (list byte) :=
  match fuel with
  | O => None
  | S fuel' =>
      match s with
      | EmptyString => Some []
      | String _ EmptyString => None
      | String c1 (String c2 EmptyString) =>
          match index c1, index c2 with
          | Some i1, Some i2 =>
              Some [byte_of (N.lor (N.shiftl i1 2) (N.shiftr i2 4))]
          | _, _ => None
          end
      | String c1 (String c2 (String c3 EmptyString)) =>
          match index c1, index c2, index c3 with
          | Some i1, Some i2, Some i3 =>
              Some [byte_of (N.lor (N.shiftl i1 2) (N.shiftr i2 4));
                    byte_of (N.lor (N.shiftl (N.land i2 15) 4) (N.shiftr i3 2))]
          | _, _, _ => None
          end
      | String c1 (String c2 (String c3 (String c4 rest))) =>
          match index c1, index c2, index c3, index c4 with
          | Some i1, Some i2, Some i3, Some i4 =>
              match decode_with index fuel' rest with
              | Some bs =>
                  Some (byte_of (N.lor (N.shiftl i1 2) (N.shiftr i2 4))
                        :: byte_of (N.lor (N.shiftl (N.land i2 15) 4)
                                          (N.shiftr i3 2))
                        :: byte_of (N.lor (N.shiftl (N.land i3 3) 6) i4)
                        :: bs)
              | None => None
              end
          | _, _, _, _ => None
          end
      end
  end.

(** Strip the ['='] padding of a standard text. *)
Definition unpad (s : string) : string :=
  Str.replace_all "="%char EmptyString s.

(** Decoder of the padded standard encoding. *)
Definition decode (s : string) : option (list byte) :=
  decode_with index_std (S (String.length s)) (unpad s).

End Base64.

Module base64url.

(** jose: [base64url.encode(input)]. A string input is first turned into
    its bytes; see [encode_string]. *)
Definition encode (input : list byte) : string :=
  Str.replace_all "/"%char "_"
    (Str.replace_all "+"%char "-"
       (Str.replace_all "="%char EmptyString (Base64.encode input))).

Definition encode_string (input : string) : string :=
  encode (Str.bytes input).

(** jose: [base64url.decode(input)], on unpadded URL-safe text. *)
Definition decode (s : string) : option (list byte) :=
  Base64.decode_with Base64.index_url (S (String.length s)) s.

(** The URL-safe alphabet. *)
Definition is_url_char (c : ascii) : bool :=
  match Base64.index_url c with Some _ => true | None => false end.

End base64url.

(* ================================================================== *)
(** * Decimal numerals *)
(* ================================================================== *)

Module Dec.

Definition digit (d : Z) : ascii := ascii_of_N (48 + Z.to_N d).

(** The [w] low decimal digits of [n], most significant first. *)
Fixpoint fixed (w : nat) (n : Z) : string :=
  match w with
  | O => EmptyString
  | S w' => fixed w' (n / 10) ++ String (digit (n mod 10)) EmptyString
  end.

(** Number of decimal digits of [n >= 0] (at least one). *)
Fixpoint ndigits_fuel (fuel : nat) (n : Z) : nat :=
  match fuel with
  | O => 1%nat
  | S fuel' => if n <? 10 then 1%nat else S (ndigits_fuel fuel' (n / 10))
  end.

Definition ndigits (n : Z) : nat := ndigits_fuel (Z.to_nat (Z.log2 n)) n.

(** ECMAScript [ToZeroPaddedDecimalString(n, minLength)]: the decimal
    representation of [n >= 0], padded on the left with zeros to at least
    [minLength] characters. *)
Definition ToZeroPaddedDecimalString (n : Z) (minLength : nat) : string :=
  fixed (Nat.max minLength (ndigits n)) n.

(** [Number.prototype.toString] on an integer. *)
Definition of_Z (n : Z) : string :=
  if n <? 0 then "-" ++ ToZeroPaddedDecimalString (- n) 1
  else ToZeroPaddedDecimalString n 1.

(** Value of a decimal digit character. *)
Definition digit_val (c : ascii) : option Z :=
  let n := Z.of_N (N_of_ascii c) in
  if (48 <=? n) && (n <=? 57) then Some (n - 48) else None.

(** Value of a numeral read from the left, starting from [acc]. *)
Fixpoint value_acc (acc : Z) (s : string) : option Z :=
  match s with
  | EmptyString => Some acc
  | String c s' =>
      match digit_val c with
      | Some d => value_acc (acc * 10 + d) s'
      | None => None
      end
  end.

(** Value of a non-empty numeral. *)
Definition value (s : string) : option Z :=
  match s with
  | EmptyString => None
  | _ => value_acc 0 s
  end.

End Dec.

(* ================================================================== *)
(** * JSON values and [JSON.stringify]

    The values a header or a payload is made of. Numbers are the integers;
    object entries are kept in their enumeration order. *)
(* ================================================================== *)

Module JSON.

Inductive value : Type :=
| Null
| Bool (b : bool)
| Number (n : Z)
| Str (s : string)
| Array (items : list value)
| Object (entries : list (string * value)).

Definition dq : string := String "034"%char EmptyString.
Definition nl : string := String "010"%char EmptyString.
Definition backslash : ascii := "092"%char.

Definition hex_digit (n : N) : ascii :=
  match String.get (N.to_nat n) "0123456789abcdef" with
  | Some c => c
  | None => "0"%char
  end.

(** ECMAScript [QuoteJSONString], character by character. *)
Definition escape_char (c : ascii) : string :=
  let n := N_of_ascii c in
  if (n =? 8)%N then String backslash "b"
  else if (n =? 9)%N then String backslash "t"
  else if (n =? 10)%N then String backslash "n"
  else if (n =? 12)%N then String backslash "f"
  else if (n =? 13)%N then String backslash "r"
  else if (n =? 34)%N then String backslash dq
  else if (n =? 92)%N then String backslash (String backslash EmptyString)
  else if (n <? 32)%N then
    String backslash
      (String "u" (String "0" (String "0"
        (String (hex_digit (n / 16))
           (String (hex_digit (n mod 16)) EmptyString)))))
  else String c EmptyString.

Fixpoint escape (s : string) : string :=
  match s with
  | EmptyString => EmptyString
  | String c s' => escape_char c ++ escape s'
  end.

Definition quote (s : string) : string := dq ++ escape s ++ dq.

Fixpoint join (sep : string) (l : list string) : string :=
  match l with
  | [] => EmptyString
  | [x] => x
  | x :: l' => x ++ sep ++ join sep l'
  end.

(** ECMAScript [SerializeJSONProperty] / [SerializeJSONObject] /
    [SerializeJSONArray] with the given [gap] at the current [indent]. *)
Fixpoint serialize (gap indent : string) (v : value) : string :=
  let wrap (open_ close_ : string) (parts : list string) : string :=
    match parts with
    | [] => open_ ++ close_
    | _ =>
        match gap with
        | EmptyString => open_ ++ join "," parts ++ close_
        | _ =>
            let inner := indent ++ gap in
            open_ ++ nl ++ inner ++ join ("," ++ nl ++ inner) parts
                  ++ nl ++ indent ++ close_
        end
    end in
  let colon := match gap with EmptyString => ":" | _ => ": " end in
  match v with
  | Null => "null"
  | Bool true => "true"
  | Bool false => "false"
  | Number n => Dec.of_Z n
  | Str s => quote s
  | Array items =>
      wrap "[" "]" (List.map (serialize gap (indent ++ gap)) items)
  | Object entries =>
      wrap "{" "}"
        (List.map (fun kv => quote (fst kv) ++ colon
                               ++ serialize gap (indent ++ gap) (snd kv))
                  entries)
  end.

(** [JSON.stringify(v)]. *)
Definition stringify (v : value) : string :=
  serialize EmptyString EmptyString v.

(** [JSON.stringify(v, null, 2)]. *)
Definition stringify2 (v : value) : string := serialize "  " EmptyString v.

(** Property access [o.k] on an object value. *)
Fixpoint lookup (k : string) (entries : list (string * value)) : option value :=
  match entries with
  | [] => None
  | (k', v) :: rest => if String.eqb k k' then Some v else lookup k rest
  end.

Definition get (k : string) (v : value) : option value :=
  match v with
  | Object entries => lookup k entries
  | _ => None
  end.

End JSON.

(* ================================================================== *)
(** * Dates (ECMA-262, section "Date Objects")

    A time value is a number of milliseconds since the epoch,
    1970-01-01T00:00:00.000Z; the valid ones lie within 8.64e15 of it. *)
(* ================================================================== *)

Module Date.

Definition msPerDay : Z := 86400000.
Definition maxTime : Z := 8640000000000000.

Definition valid (t : Z) : Prop := - maxTime <= t <= maxTime.

Definition Day (t : Z) : Z := t / msPerDay.
Definition TimeWithinDay (t : Z) : Z := t mod msPerDay.

Definition DaysInYear (y : Z) : Z :=
  if y mod 400 =? 0 then 366
  else if y mod 100 =? 0 then 365
  else if y mod 4 =? 0 then 366
  else 365.

Definition DayFromYear (y : Z) : Z :=
  365 * (y - 1970) + (y - 1969) / 4 - (y - 1901) / 100 + (y - 1601) / 400.

Definition TimeFromYear (y : Z) : Z := msPerDay * DayFromYear y.

(** The largest [y] with [TimeFromYear y <= t]: the mean year length is
    146097/400 days, which places [y] within one year of the estimate. *)
Definition YearFromTime (t : Z) : Z :=
  let d := Day t in
  let y0 := 1970 + (400 * d) / 146097 in
  if DayFromYear (y0 + 1) <=? d then y0 + 1
  else if DayFromYear y0 <=? d then y0
  else y0 - 1.

Definition InLeapYear (t : Z) : Z :=
  if DaysInYear (YearFromTime t) =? 366 then 1 else 0.

Definition DayWithinYear (t : Z) : Z := Day t - DayFromYear (YearFromTime t).

(** First day, within a year of leap flag [L], of the months after
    [m] (0 for January). *)
Definition month_end (L m : Z) : Z :=
  match m with
  | 0 => 31
  | 1 => 59 + L
  | 2 => 90 + L
  | 3 => 120 + L
  | 4 => 151 + L
  | 5 => 181 + L
  | 6 => 212 + L
  | 7 => 243 + L
  | 8 => 273 + L
  | 9 => 304 + L
  | 10 => 334 + L
  | _ => 365 + L
  end.

Definition month_start (L m : Z) : Z :=
  if m =? 0 then 0 else month_end L (m - 1).

Definition MonthFromTime (t : Z) : Z :=
  let d := DayWithinYear t in
  let L := InLeapYear t in
  if d <? month_end L 0 then 0
  else if d <? month_end L 1 then 1
  else if d <? month_end L 2 then 2
  else if d <? month_end L 3 then 3
  else if d <? month_end L 4 then 4
  else if d <? month_end L 5 then 5
  else if d <? month_end L 6 then 6
  else if d <? month_end L 7 then 7
  else if d <? month_end L 8 then 8
  else if d <? month_end L 9 then 9
  else if d <? month_end L 10 then 10
  else 11.

Definition DateFromTime (t : Z) : Z :=
  DayWithinYear t - month_start (InLeapYear t) (MonthFromTime t) + 1.

Definition HourFromTime (t : Z) : Z := (t / 3600000) mod 24.
Definition MinFromTime (t : Z) : Z := (t / 60000) mod 60.
Definition SecFromTime (t : Z) : Z := (t / 1000) mod 60.
Definition msFromTime (t : Z) : Z := t mod 1000.

Definition pad := Dec.ToZeroPaddedDecimalString.

(** The text of [Date.prototype.toISOString] for a finite time value:
    [YYYY-MM-DDTHH:mm:ss.sssZ], the year as [+YYYYYY] or [-YYYYYY] when it
    lies outside 0..9999. *)
Definition iso_text (t : Z) : string :=
  let y := YearFromTime t in
  let year :=
    if (0 <=? y) && (y <=? 9999) then pad y 4
    else (if 0 <=? y then "+" else "-") ++ pad (Z.abs y) 6 in
  year ++ "-" ++ pad (MonthFromTime t + 1) 2 ++ "-" ++ pad (DateFromTime t) 2
       ++ "T" ++ pad (HourFromTime t) 2 ++ ":" ++ pad (MinFromTime t) 2
       ++ ":" ++ pad (SecFromTime t) 2 ++ "." ++ pad (msFromTime t) 3 ++ "Z".

(** Reader of the same format (the inverse direction, used to state that
    the text loses nothing): fixed-width fields and literal separators. *)
Definition field (w : nat) (s : string) : option (Z * string) :=
  let f := String.substring 0 w s in
  if Nat.eqb (String.length f) w then
    match Dec.value f with
    | Some n => Some (n, String.substring w (String.length s - w) s)
    | None => None
    end
  else None.

Definition expect (c : ascii) (s : string) : option string :=
  match s with
  | String a s' => if Ascii.eqb a c then Some s' else None
  | EmptyString => None
  end.

Definition year_field (s : string) : option (Z * string) :=
  match s with
  | String "+" s' => field 6 s'
  | String "-" s' =>
      match field 6 s' with
      | Some (n, r) => Some (- n, r)
      | None => None
      end
  | _ => field 4 s
  end.

Definition isLeap (y : Z) : Z := if DaysInYear y =? 366 then 1 else 0.

(** [MakeDate(MakeDay(y, m, d), MakeTime(h, mi, sec, ms))]. *)
Definition make (y m d h mi sec ms : Z) : Z :=
  (DayFromYear y + month_start (isLeap y) m + (d - 1)) * msPerDay
  + h * 3600000 + mi * 60000 + sec * 1000 + ms.

Definition parse_iso (s : string) : option Z :=
  match year_field s with
  | Some (y, s) =>
  match expect "-" s with Some s =>
  match field 2 s with Some (mo, s) =>
  match expect "-" s with Some s =>
  match field 2 s with Some (d, s) =>
  match expect "T" s with Some s =>
  match field 2 s with Some (h, s) =>
  match expect ":" s with Some s =>
  match field 2 s with Some (mi, s) =>
  match expect ":" s with Some s =>
  match field 2 s with Some (sec, s) =>
  match expect "." s with Some s =>
  match field 3 s with Some (ms, s) =>
  match s with
  | "Z" => Some (make y (mo - 1) d h mi sec ms)
  | _ => None
  end
  | None => None end | None => None end | None => None end | None => None end
  | None => None end | None => None end | None => None end | None => None end
  | None => None end | None => None end | None => None end | None => None end
  | None => None
  end.

End Date.

(* ================================================================== *)
(** * The outside world: errors, AWS SDK shapes, events *)
(* ================================================================== *)

(** A thrown value. *)
Record JSError : Type := mkError { err_name : string; err_message : string }.

(** How an evaluation or an awaited promise ends. *)
Inductive Outcome (A : Type) : Type :=
| Returned (a : A)
| Thrown (e : JSError).

Arguments Returned {A} a.
Arguments Thrown {A} e.

(** A dayjs object: its time value, or [None] for an invalid date. *)
Definition Dayjs : Type := option Z.

(** [Date.prototype.toISOString] (which [dayjs.toISOString] calls): a
    [RangeError] on an invalid date. *)
Definition toISOString (d : Dayjs) : Outcome string :=
  match d with
  | Some t => Returned (Date.iso_text t)
  | None => Thrown (mkError "RangeError" "Invalid time value")
  end.

Record Tag : Type := mkTag { TagKey : string; TagValue : string }.

Record CreateKeyInput : Type := mkCreateKeyInput {
  KeySpec : string;
  KeyUsage : string;
  Description : string;
  Policy : string;
  Tags : list Tag
}.

Record SignInput : Type := mkSignInput {
  sign_KeyId : string;
  Message : list byte;
  MessageType : string;
  SigningAlgorithm : string
}.

(** The commands [client.send] is given. *)
Inductive Command : Type :=
| CreateKeyCommand (input : CreateKeyInput)
| GetPublicKeyCommand (KeyId : string)
| DescribeKeyCommand (KeyId : string)
| SignCommand (input : SignInput)
| ScheduleKeyDeletionCommand (KeyId : string) (PendingWindowInDays : Z).

Record KeyMetadataT : Type := mkKeyMetadata {
  KeyId : option string;
  Enabled : option bool
}.

(** A response object, with the fields the code reads; a field the
    response does not carry reads as [undefined]. *)
Record Response : Type := mkResponse {
  KeyMetadata : option KeyMetadataT;
  PublicKey : option (list byte);
  Signature : option (list byte)
}.

(** Modelled from the spec: the record [retrieveJWK] of [./jwks] resolves
    to, [{kid, kmsKeyId, active}]; the code reads its KMS key id under the
    name [kms_id]. *)
Record JWKRecord : Type := mkJWK { kms_id : string; active : bool }.

(** What the functions do to the outside, in order. *)
Inductive Event : Type :=
| Sent (c : Command)
| JWKLookup (kid : option JSON.value)
| ConsoleError (label : string) (e : JSError).

(** The environment the module runs in, over a world state [W]:
    [process.env.AWS_KMS_ROLE_ARN]; the constant [JWK_TIME_TO_LIVE] of
    [src/lib/constants]; the clock read by [new Date()] and [dayjs()];
    [dayjs(t).add(n, "day")]; the KMS client's [send]; and
    [retrieveJWK] of [./jwks]. *)
Record Runtime (W : Type) : Type := mkRuntime {
  AWS_KMS_ROLE_ARN : option string;
  JWK_TIME_TO_LIVE : Z;
  clock : W -> W * Z;
  dayjs_add_day : Z -> Z -> Dayjs;
  kms_send : W -> Command -> W * Outcome Response;
  jwks_retrieveJWK : W -> option JSON.value -> W * Outcome JWKRecord
}.

Record State (W : Type) : Type := mkState { world : W; trace : list Event }.

(** * The monad of asynchronous functions *)

Definition M (W A : Type) : Type := State W -> State W * Outcome A.

Definition ret {W A} (a : A) : M W A := fun s => (s, Returned a).

Definition throw {W A} (e : JSError) : M W A := fun s => (s, Thrown e).

Definition bind {W A B} (m : M W A) (k : A -> M W B) : M W B :=
  fun s =>
    match m s with
    | (s', Returned a) => k a s'
    | (s', Thrown e) => (s', Thrown e)
    end.

(** [try { m } catch (error) { h error }]. *)
Definition try_catch {W A} (m : M W A) (h : JSError -> M W A) : M W A :=
  fun s =>
    match m s with
    | (s', Returned a) => (s', Returned a)
    | (s', Thrown e) => h e s'
    end.

(** A synchronous evaluation inside an asynchronous function. *)
Definition lift {W A} (o : Outcome A) : M W A := fun s => (s, o).

Definition emit {W} (ev : Event) : M W unit :=
  fun s => (mkState (world s) (trace s ++ [ev]), Returned tt).

Declare Scope js_scope.
Delimit Scope js_scope with js.
Notation "x <- m ;; k" := (bind m (fun x => k))
  (at level 61, m at next level, right associativity) : js_scope.
Notation "m ;;; k" := (bind m (fun _ => k))
  (at level 61, right associativity) : js_scope.

(** [cond ? ... : ...] on a string: the empty string is falsy. *)
Definition truthy_string (s : string) : bool :=
  match s with EmptyString => false | _ => true end.

(** The policy template, with ['] standing for the double quote in the
    literal parts. *)
Definition lit (s : string) : string := Str.replace_all "'"%char JSON.dq s.

(** [String(v)] for a value that may be [undefined]. *)
Definition string_of_env (v : option string) : string :=
  match v with Some s => s | None => "undefined" end.

(** The template literal of [kmsKeyPolicy], around the two interpolated
    texts. *)
Definition policy_template (principal instant : string) : string :=
  lit "{
  'Version': '2012-10-17',
  'Id': 'key-default-1',
  'Statement': [
    {
      'Sid': 'AllowAccessUntilExpirationDate',
      'Effect': 'Allow',
      'Principal': {
        'AWS': '" ++ principal ++ lit "'
      },
      'Action': [
        'kms:CreateKey',
        'kms:TagResource',
        'kms:DescribeKey',
        'kms:PutKeyPolicy',
        'kms:GetPublicKey',
        'kms:Sign',
        'kms:Verify',
        'kms:ScheduleKeyDeletion'
      ],
      'Resource': '*',
      'Condition': {
        'DateLessThan': {
          'aws:CurrentTime': '" ++ instant ++ lit "'
        }
      }
    }
  ]
}".

(** [kmsKeyPolicy(expire_at)], given [process.env.AWS_KMS_ROLE_ARN]. *)
Definition kmsKeyPolicy (arn : option string) (expire_at : Dayjs)
  : Outcome string :=
  match toISOString expire_at with
  | Returned iso => Returned (policy_template (string_of_env arn) iso)
  | Thrown e => Thrown e
  end.

(** [CreateKeyResult]: [{ keyId, publicKey } | undefined]. *)
Record CreatedKey : Type := mkCreatedKey {
  keyId : string;
  publicKey : string
}.
Definition CreateKeyResult : Type := option CreatedKey.

Section Functions.

Context {W : Type} (R : Runtime W).

Local Open Scope js_scope.

Definition send (c : Command) : M W Response :=
  fun s =>
    let (w', r) := kms_send R (world s) c in
    (mkState w' (trace s ++ [Sent c]), r).

Definition retrieveJWK (kid : option JSON.value) : M W JWKRecord :=
  fun s =>
    let (w', r) := jwks_retrieveJWK R (world s) kid in
    (mkState w' (trace s ++ [JWKLookup kid]), r).

(** [new Date()] and [dayjs()]. *)
Definition now : M W Z :=
  fun s =>
    let (w', t) := clock R (world s) in
    (mkState w' (trace s), Returned t).

Definition console_error (label : string) (e : JSError) : M W unit :=
  emit (ConsoleError label e).

Definition createKMSKey (alg : string) : M W CreateKeyResult :=
  try_catch
    (created <- now ;;
     stamp <- lift (toISOString (Some created)) ;;
     today <- now ;;
     policy <- lift (kmsKeyPolicy (AWS_KMS_ROLE_ARN R)
                       (dayjs_add_day R today (JWK_TIME_TO_LIVE R))) ;;
     r <- send (CreateKeyCommand
                  (mkCreateKeyInput alg "SIGN_VERIFY"
                     ("Developer Portal JWK for Sign in with Worldcoin. "
                        ++ "Created: " ++ stamp)
                     policy
                     [mkTag "app" "developer-portal"])) ;;
     match match KeyMetadata r with Some km => KeyId km | None => None end with
     | Some keyId =>
         if truthy_string keyId then
           r' <- send (GetPublicKeyCommand keyId) ;;
           match PublicKey r' with
           | Some pk =>
               ret (Some (mkCreatedKey keyId
                            ("-----BEGIN PUBLIC KEY-----" ++ JSON.nl
                               ++ Base64.encode pk ++ JSON.nl
                               ++ "-----END PUBLIC KEY-----")))
           | None => ret None
           end
         else ret None
     | None => ret None
     end)
    (fun error => console_error "Error creating key:" error ;;; ret None).

Definition getKMSKeyStatus (keyId : string) : M W (option bool) :=
  try_catch
    (r <- send (DescribeKeyCommand keyId) ;;
     ret (match KeyMetadata r with Some km => Enabled km | None => None end))
    (fun error => console_error "Error describing key:" error ;;; ret None).

Definition signJWTWithKMSKey (header payload : list (string * JSON.value))
  : M W (option string) :=
  let encodedHeader :=
    base64url.encode_string (JSON.stringify (JSON.Object header)) in
  let encodedPayload :=
    base64url.encode_string (JSON.stringify (JSON.Object payload)) in
  let encodedHeaderPayload := encodedHeader ++ "." ++ encodedPayload in
  try_catch
    (jwk <- retrieveJWK (JSON.lookup "kid" header) ;;
     response <- send (SignCommand
                         (mkSignInput (kms_id jwk)
                            (Str.bytes encodedHeaderPayload)
                            "RAW" "RSASSA_PKCS1_V1_5_SHA_256")) ;;
     match Signature response with
     | Some signature =>
         let encodedSignature :=
           Str.replace_all "="%char EmptyString
             (Str.replace_all "/"%char "_"
                (Str.replace_all "+"%char "-"
                   (base64url.encode signature))) in
         ret (Some (encodedHeaderPayload ++ "." ++ encodedSignature))
     | None => ret None
     end)
    (fun error => console_error "Error signing JWT:" error ;;; ret None).

Definition scheduleKeyDeletion (keyId : string) : M W unit :=
  try_catch
    (_ <- send (ScheduleKeyDeletionCommand keyId 7) ;; ret tt)
    (fun error =>
       console_error "Error scheduling key deletion:" error ;;; ret tt).

(** Running a function from a world with an empty trace. *)
Definition run {A} (m : M W A) (w : W) : State W * Outcome A :=
  m (mkState w []).

Definition result {A} (m : M W A) (w : W) : Outcome A := snd (run m w).
Definition events {A} (m : M W A) (w : W) : list Event :=
  trace (fst (run m w)).

End Functions.

(* ================================================================== *)
(** * Definitions used to state and prove the properties *)
(* ================================================================== *)

(** The numbers below [k]. *)
Definition below (k : nat) : list N := List.map N.of_nat (List.seq 0 k).

(** What jose's replacements do to one character of a standard text. *)
Definition tr_url (c : ascii) : ascii :=
  if Ascii.eqb c "+" then "-"%char
  else if Ascii.eqb c "/" then "_"%char
  else c.

(** The unpadded encoding over a translated alphabet, group by group. *)
Fixpoint enc_with (tr : ascii -> ascii) (l : list byte) : string :=
  match l with
  | [] => EmptyString
  | [x] =>
      String (tr (Base64.char_of (N.shiftr (Base64.b x) 2)))
     (String (tr (Base64.char_of (N.shiftl (N.land (Base64.b x) 3) 4)))
      EmptyString)
  | [x; y] =>
      String (tr (Base64.char_of (N.shiftr (Base64.b x) 2)))
     (String (tr (Base64.char_of
                (N.lor (N.shiftl (N.land (Base64.b x) 3) 4)
                       (N.shiftr (Base64.b y) 4))))
     (String (tr (Base64.char_of (N.shiftl (N.land (Base64.b y) 15) 2)))
      EmptyString))
  | x :: y :: z :: rest =>
      String (tr (Base64.char_of (N.shiftr (Base64.b x) 2)))
     (String (tr (Base64.char_of
                (N.lor (N.shiftl (N.land (Base64.b x) 3) 4)
                       (N.shiftr (Base64.b y) 4))))
     (String (tr (Base64.char_of
                (N.lor (N.shiftl (N.land (Base64.b y) 15) 2)
                       (N.shiftr (Base64.b z) 6))))
     (String (tr (Base64.char_of (N.land (Base64.b z) 63)))
     (enc_with tr rest))))
  end.

(** A character of the standard alphabet, or the padding character. *)
Definition is_std_char (c : ascii) : bool :=
  match Base64.index_std c with
  | Some _ => true
  | None => Ascii.eqb c "="
  end.

(** The six-bit groups of one, two and three bytes and their reassembly:
    checked on every byte, or pair of bytes. *)
Definition sextets_ok (a c : N) : bool :=
  let i1 := N.shiftr a 2 in
  let i2 := N.lor (N.shiftl (N.land a 3) 4) (N.shiftr c 4) in
  let i3 := N.lor (N.shiftl (N.land a 15) 2) (N.shiftr c 6) in
  let i4 := N.land c 63 in
  (i1 <? 64)%N && (i2 <? 64)%N && (i3 <? 64)%N && (i4 <? 64)%N
  && (N.shiftl (N.land a 3) 4 <? 64)%N
  && (N.shiftl (N.land a 15) 2 <? 64)%N
  && (N.lor (N.shiftl i1 2) (N.shiftr i2 4) =? a)%N
  && (N.lor (N.shiftl i1 2) (N.shiftr (N.shiftl (N.land a 3) 4) 4) =? a)%N
  && (N.land i2 15 =? N.shiftr c 4)%N
  && (N.lor (N.shiftl (N.shiftr a 4) 4) (N.shiftr i3 2) =? a)%N
  && (N.lor (N.shiftl (N.shiftr a 4) 4)
        (N.shiftr (N.shiftl (N.land a 15) 2) 2) =? a)%N
  && (N.lor (N.shiftl (N.land i3 3) 6) i4 =? c)%N.

(** The two alphabets, checked on every six-bit value. *)
Definition alphabet_ok (n : N) : bool :=
  let c := Base64.char_of n in
  negb (Ascii.eqb c "=")
  && match Base64.index_std c with Some i => (i =? n)%N | None => false end
  && match Base64.index_url (tr_url c) with
     | Some i => (i =? n)%N
     | None => false
     end.

(** The replacements of jose's encoder, as one function. *)
Definition url_chain (s : string) : string :=
  Str.replace_all "/"%char "_"
    (Str.replace_all "+"%char "-" (Str.replace_all "="%char EmptyString s)).

(** The signing input of a header and a payload, and the command
    [signJWTWithKMSKey] sends for it under the KMS key [key]. *)
Definition signing_input (header payload : list (string * JSON.value))
  : string :=
  base64url.encode_string (JSON.stringify (JSON.Object header))
    ++ "." ++ base64url.encode_string (JSON.stringify (JSON.Object payload)).

Definition sign_command (key : string)
  (header payload : list (string * JSON.value)) : Command :=
  SignCommand (mkSignInput key (Str.bytes (signing_input header payload))
                 "RAW" "RSASSA_PKCS1_V1_5_SHA_256").

(** What a verifier signs again: the token up to its last ['.']. *)
Definition verifier_input (token : string) : option string :=
  match Str.split "." token with
  | [seg1; seg2; _] => Some (seg1 ++ "." ++ seg2)
  | _ => None
  end.

(** ** Stub worlds, for the concrete scenarios *)

(** A world without state: fixed configuration and clock, a client and a
    JWK store that answer by the given functions. *)
Definition stub (client : Command -> Outcome Response)
  (store : option JSON.value -> Outcome JWKRecord) : Runtime unit :=
  mkRuntime (Some "arn:aws:iam::123456789012:role/kms") 90
    (fun w => (w, 1700000000000))
    (fun t n => Some (t + n * 86400000))
    (fun w c => (w, client c))
    (fun w kid => (w, store kid)).

Definition network_error : JSError := mkError "Error" "socket hang up".

Definition response_with (km : option KeyMetadataT)
  (pk sig : option (list byte)) : Outcome Response :=
  Returned (mkResponse km pk sig).

(** Scenario B: the store knows ["abc123"], the client signs with the
    bytes AA BB CC. *)
Definition store_B (kid : option JSON.value) : Outcome JWKRecord :=
  match kid with
  | Some (JSON.Str "abc123") => Returned (mkJWK "kms-1" true)
  | _ => Thrown (mkError "Error" "JWK not found")
  end.

Definition client_B (c : Command) : Outcome Response :=
  match c with
  | SignCommand _ => response_with None None (Some [xaa; xbb; xcc])
  | _ => Thrown network_error
  end.

Definition world_B : Runtime unit := stub client_B store_B.

Definition header_B : list (string * JSON.value) :=
  [("kid", JSON.Str "abc123")].
Definition payload_B : list (string * JSON.value) :=
  [("sub", JSON.Str "user1")].

(** A client whose Sign response carries a signature of no bytes. *)
Definition client_empty_signature (c : Command) : Outcome Response :=
  match c with
  | SignCommand _ => response_with None None (Some [])
  | _ => Thrown network_error
  end.

(** A client whose every call fails. *)
Definition client_down (c : Command) : Outcome Response := Thrown network_error.

(** A client whose every call succeeds: key ["abc123"], enabled, with a
    four-byte public key. *)
Definition client_ok (c : Command) : Outcome Response :=
  match c with
  | CreateKeyCommand _ | DescribeKeyCommand _ =>
      response_with (Some (mkKeyMetadata (Some "abc123") (Some true))) None None
  | GetPublicKeyCommand _ => response_with None (Some [x30; x82; x01; x22]) None
  | SignCommand _ => response_with None None (Some [xaa; xbb; xcc])
  | ScheduleKeyDeletionCommand _ _ => response_with None None None
  end.

(** A client whose DescribeKey response carries no key metadata. *)
Definition client_no_metadata (c : Command) : Outcome Response :=
  response_with None None None.

(** A client whose GetPublicKey response carries a key of no bytes. *)
Definition client_empty_public_key (c : Command) : Outcome Response :=
  match c with
  | GetPublicKeyCommand _ => response_with None (Some []) None
  | _ => client_ok c
  end.

(** A client whose GetPublicKey call fails after CreateKey succeeded. *)
Definition client_no_public_key (c : Command) : Outcome Response :=
  match c with
  | GetPublicKeyCommand _ => Thrown network_error
  | _ => client_ok c
  end.

Definition no_store (kid : option JSON.value) : Outcome JWKRecord :=
  Thrown (mkError "Error" "JWK not found").

(** The PEM armour of [createKMSKey] around a body, and its reader. *)
Definition pem (body : string) : string :=
  "-----BEGIN PUBLIC KEY-----" ++ JSON.nl ++ body ++ JSON.nl
    ++ "-----END PUBLIC KEY-----".

Definition pem_body (text : string) : option string :=
  match Str.split "010"%char text with
  | [first; body; last] =>
      if String.eqb first "-----BEGIN PUBLIC KEY-----"
         && String.eqb last "-----END PUBLIC KEY-----"
      then Some body else None
  | _ => None
  end.

(** The CreateKey command of [createKMSKey], by the clock reading put in
    the description and the policy text. *)
Definition create_key_command (alg : string) (created : Z) (policy : string)
  : Command :=
  CreateKeyCommand
    (mkCreateKeyInput alg "SIGN_VERIFY"
       ("Developer Portal JWK for Sign in with Worldcoin. "
          ++ "Created: " ++ Date.iso_text created)
       policy
       [mkTag "app" "developer-portal"]).

(** The key id a CreateKey response carries, [KeyMetadata?.KeyId]. *)
Definition key_id_of (r : Response) : option string :=
  match KeyMetadata r with Some km => KeyId km | None => None end.

(** [KeyMetadata?.Enabled]. *)
Definition enabled_of (r : Response) : option bool :=
  match KeyMetadata r with Some km => Enabled km | None => None end.

(** The spec's operation [scheduleDeletion(keyId, pendingWindowDays)] over
    the source's function: [scheduleKeyDeletion] has no parameter for the
    window, and JavaScript drops an argument no parameter receives. *)
Definition scheduleDeletion {W : Type} (R : Runtime W) (keyId : string)
  (pendingWindowDays : Z) : M W unit :=
  scheduleKeyDeletion R keyId.

(** A character [JSON.stringify] writes as it is. *)
Definition json_plain (c : ascii) : bool :=
  let n := N_of_ascii c in
  negb (n <? 32)%N && negb (n =? 34)%N && negb (n =? 92)%N.

(** ** The policy as a document

    The spec's [AccessPolicyDocument]: a principal, a set of allowed
    actions and the instant of the condition; and the IAM policy it stands
    for, to be compared with the text [kmsKeyPolicy] writes. *)
Record AccessPolicyDocument : Type := mkPolicy {
  principalArn : string;
  allowedActions : list string;
  expiresAt : string
}.

(** create, tag, describe, set-policy, get-public-key, sign, verify,
    schedule-deletion. *)
Definition fixed_actions : list string :=
  ["kms:CreateKey"; "kms:TagResource"; "kms:DescribeKey"; "kms:PutKeyPolicy";
   "kms:GetPublicKey"; "kms:Sign"; "kms:Verify"; "kms:ScheduleKeyDeletion"].

Definition policy_json (doc : AccessPolicyDocument) : JSON.value :=
  JSON.Object
    [("Version", JSON.Str "2012-10-17");
     ("Id", JSON.Str "key-default-1");
     ("Statement",
      JSON.Array
        [JSON.Object
           [("Sid", JSON.Str "AllowAccessUntilExpirationDate");
            ("Effect", JSON.Str "Allow");
            ("Principal", JSON.Object [("AWS", JSON.Str (principalArn doc))]);
            ("Action", JSON.Array (List.map JSON.Str (allowedActions doc)));
            ("Resource", JSON.Str "*");
            ("Condition",
             JSON.Object
               [("DateLessThan",
                 JSON.Object
                   [("aws:CurrentTime", JSON.Str (expiresAt doc))])])]])].

(* ================================================================== *)
(** * A reader of serialized JSON

    The inverse direction of [JSON.stringify], used to state that a
    serialization keeps the whole value: integers, strings with the
    escapes [JSON.stringify] writes, arrays and objects, with white space
    between the tokens. *)
(* ================================================================== *)

Module Reader.

Definition is_digit (c : ascii) : bool :=
  match Dec.digit_val c with Some _ => true | None => false end.

(** The longest prefix of digits, and what follows it. *)
Fixpoint span_digits (s : string) : string * string :=
  match s with
  | EmptyString => (EmptyString, EmptyString)
  | String c s' =>
      if is_digit c then
        let (d, r) := span_digits s' in (String c d, r)
      else (EmptyString, s)
  end.

Definition number (s : string) : option (Z * string) :=
  let (d, r) := span_digits s in
  match Dec.value d with
  | Some n => Some (n, r)
  | None => None
  end.

Definition hex_val (c : ascii) : option N :=
  let n := N_of_ascii c in
  if ((48 <=? n) && (n <=? 57))%N then Some (n - 48)%N
  else if ((97 <=? n) && (n <=? 102))%N then Some (n - 87)%N
  else if ((65 <=? n) && (n <=? 70))%N then Some (n - 55)%N
  else None.

(** The character of a two-character escape. *)
Definition unescape (e : ascii) : option ascii :=
  let n := N_of_ascii e in
  if (n =? 98)%N then Some "008"%char
  else if (n =? 116)%N then Some "009"%char
  else if (n =? 110)%N then Some "010"%char
  else if (n =? 102)%N then Some "012"%char
  else if (n =? 114)%N then Some "013"%char
  else if (n =? 34)%N then Some "034"%char
  else if (n =? 92)%N then Some "092"%char
  else if (n =? 47)%N then Some "/"%char
  else None.

(** The characters of a string literal, after its opening quote, up to
    the closing quote. *)
Fixpoint chars (s : string) : option (string * string) :=
  match s with
  | EmptyString => None
  | String c s' =>
      if (N_of_ascii c =? 34)%N then Some (EmptyString, s')
      else if (N_of_ascii c =? 92)%N then
        match s' with
        | String e s'' =>
            if (N_of_ascii e =? 117)%N then
              match s'' with
              | String h1 (String h2 (String h3 (String h4 s3))) =>
                  match hex_val h1, hex_val h2, hex_val h3, hex_val h4 with
                  | Some 0%N, Some 0%N, Some a, Some b =>
                      match chars s3 with
                      | Some (x, r) =>
                          Some (String (ascii_of_N (16 * a + b)) x, r)
                      | None => None
                      end
                  | _, _, _, _ => None
                  end
              | _ => None
              end
            else
              match unescape e with
              | Some c' =>
                  match chars s'' with
                  | Some (x, r) => Some (String c' x, r)
                  | None => None
                  end
              | None => None
              end
        | EmptyString => None
        end
      else if (N_of_ascii c <? 32)%N then None
      else
        match chars s' with
        | Some (x, r) => Some (String c x, r)
        | None => None
        end
  end.

Fixpoint strip_prefix (p s : string) : option string :=
  match p, s with
  | EmptyString, _ => Some s
  | String a p', String c s' =>
      if Ascii.eqb a c then strip_prefix p' s' else None
  | String _ _, EmptyString => None
  end.

Definition is_ws (c : ascii) : bool :=
  let n := N_of_ascii c in
  (n =? 32)%N || (n =? 10)%N || (n =? 13)%N || (n =? 9)%N.

(** White space may stand before any token. *)
Fixpoint skip_ws (s : string) : string :=
  match s with
  | EmptyString => EmptyString
  | String c s' => if is_ws c then skip_ws s' else s
  end.

Fixpoint value (fuel : nat) (s : string) : option (JSON.value * string) :=
  match fuel with
  | O => None
  | S fuel' =>
      match skip_ws s with
      | EmptyString => None
      | String c s' =>
          if (N_of_ascii c =? 34)%N then
            match chars s' with
            | Some (x, r) => Some (JSON.Str x, r)
            | None => None
            end
          else if Ascii.eqb c "[" then
            match skip_ws s' with
            | String "]" r => Some (JSON.Array [], r)
            | _ =>
                match items fuel' s' with
                | Some (vs, r) => Some (JSON.Array vs, r)
                | None => None
                end
            end
          else if Ascii.eqb c "{" then
            match skip_ws s' with
            | String "}" r => Some (JSON.Object [], r)
            | _ =>
                match entries fuel' s' with
                | Some (es, r) => Some (JSON.Object es, r)
                | None => None
                end
            end
          else if Ascii.eqb c "-" then
            match number s' with
            | Some (n, r) => Some (JSON.Number (- n), r)
            | None => None
            end
          else if is_digit c then
            match number (String c s') with
            | Some (n, r) => Some (JSON.Number n, r)
            | None => None
            end
          else
            match strip_prefix "null" (String c s') with
            | Some r => Some (JSON.Null, r)
            | None =>
                match strip_prefix "true" (String c s') with
                | Some r => Some (JSON.Bool true, r)
                | None =>
                    match strip_prefix "false" (String c s') with
                    | Some r => Some (JSON.Bool false, r)
                    | None => None
                    end
                end
            end
      end
  end

with items (fuel : nat) (s : string) : option (list JSON.value * string) :=
  match fuel with
  | O => None
  | S fuel' =>
      match value fuel' s with
      | Some (v, r) =>
          match skip_ws r with
          | String "," r' =>
              match items fuel' r' with
              | Some (vs, r'') => Some (v :: vs, r'')
              | None => None
              end
          | String "]" r' => Some ([v], r')
          | _ => None
          end
      | None => None
      end
  end

with entries (fuel : nat) (s : string)
  : option (list (string * JSON.value) * string) :=
  match fuel with
  | O => None
  | S fuel' =>
      match skip_ws s with
      | String c s' =>
          if (N_of_ascii c =? 34)%N then
            match chars s' with
            | Some (k, r) =>
                match skip_ws r with
                | String ":" r1 =>
                    match value fuel' r1 with
                    | Some (v, r2) =>
                        match skip_ws r2 with
                        | String "," r3 =>
                            match entries fuel' r3 with
                            | Some (es, r4) => Some ((k, v) :: es, r4)
                            | None => None
                            end
                        | String "}" r3 => Some ([(k, v)], r3)
                        | _ => None
                        end
                    | None => None
                    end
                | _ => None
                end
            | None => None
            end
          else None
      | EmptyString => None
      end
  end.

(** Reading a whole text. *)
Definition parse (s : string) : option JSON.value :=
  match value (S (S (String.length s))) s with
  | Some (v, r) =>
      match skip_ws r with
      | EmptyString => Some v
      | _ => None
      end
  | None => None
  end.

End Reader.

(** A text that does not continue a numeral. *)
Definition starts_plain (s : string) : bool :=
  match s with
  | EmptyString => true
  | String c _ => negb (Reader.is_digit c)
  end.

(** The white space [JSON.stringify] puts, under a gap, before each item
    of an array or object at [indent], and before its closing bracket;
    and what it puts between a key and its value. *)
Definition ws_before_item (gap indent : string) : string :=
  match gap with
  | EmptyString => EmptyString
  | _ => JSON.nl ++ indent ++ gap
  end.

Definition ws_before_close (gap indent : string) : string :=
  match gap with
  | EmptyString => EmptyString
  | _ => JSON.nl ++ indent
  end.

Definition colon (gap : string) : string :=
  match gap with
  | EmptyString => ":"
  | _ => ": "
  end.

(** The serialization of an object entry at [indent]. *)
Definition serialize_entry (gap indent : string) (kv : string * JSON.value)
  : string :=
  JSON.quote (fst kv) ++ colon gap ++ JSON.serialize gap indent (snd kv).

(** How a serialization starts: never with a closing bracket, a comma or
    a digit-continuing sign. *)
Definition opener (c : ascii) : bool :=
  (N_of_ascii c =? 34)%N || Ascii.eqb c "[" || Ascii.eqb c "{"
  || Ascii.eqb c "-" || Reader.is_digit c
  || Ascii.eqb c "n" || Ascii.eqb c "t" || Ascii.eqb c "f".

(* ================================================================== *)
(** * Functions with events of their own

    [getKMSClient] talks to STS rather than to KMS, and the confirm handler
    of the remove-member dialog to the team hook; they run in the same kind
    of monad as above, over their own events. *)
(* ================================================================== *)

Definition Eff (E W A : Type) : Type := W * list E -> (W * list E) * Outcome A.

Definition eff_ret {E W A} (a : A) : Eff E W A := fun s => (s, Returned a).

Definition eff_bind {E W A B} (m : Eff E W A) (k : A -> Eff E W B)
  : Eff E W B :=
  fun s =>
    match m s with
    | (s', Returned a) => k a s'
    | (s', Thrown e) => (s', Thrown e)
    end.

Definition eff_try {E W A} (m : Eff E W A) (h : JSError -> Eff E W A)
  : Eff E W A :=
  fun s =>
    match m s with
    | (s', Returned a) => (s', Returned a)
    | (s', Thrown e) => h e s'
    end.

Definition eff_emit {E W} (ev : E) : Eff E W unit :=
  fun s => ((fst s, (snd s ++ [ev])%list), Returned tt).

(** An awaited call to the outside, recorded as [ev]. *)
Definition eff_call {E W A} (oracle : W -> W * Outcome A) (ev : E)
  : Eff E W A :=
  fun s =>
    let (w', r) := oracle (fst s) in
    ((w', (snd s ++ [ev])%list), r).

Definition eff_run {E W A} (m : Eff E W A) (w : W)
  : (W * list E) * Outcome A :=
  m (w, []).

Definition eff_result {E W A} (m : Eff E W A) (w : W) : Outcome A :=
  snd (eff_run m w).

Definition eff_events {E W A} (m : Eff E W A) (w : W) : list E :=
  snd (fst (eff_run m w)).

Declare Scope eff_scope.
Delimit Scope eff_scope with eff.
Notation "x <- m ;; k" := (eff_bind m (fun x => k))
  (at level 61, m at next level, right associativity) : eff_scope.
Notation "m ;;; k" := (eff_bind m (fun _ => k))
  (at level 61, right associativity) : eff_scope.

(** ** [getKMSClient] *)

Record AssumeRoleInput : Type := mkAssumeRoleInput {
  RoleArn : option string;
  RoleSessionName : string;
  DurationSeconds : Z
}.

(** The [Credentials] of an AssumeRole response; the SDK types each field
    as possibly [undefined]. *)
Record CredentialsT : Type := mkCredentials {
  AccessKeyId : option string;
  SecretAccessKey : option string;
  SessionToken : option string
}.

Record AssumeRoleResponse : Type := mkAssumeRoleResponse {
  Credentials : option CredentialsT
}.

Record RoleCredentials : Type := mkRoleCredentials {
  accessKeyId : option string;
  secretAccessKey : option string;
  sessionToken : option string
}.

(** The two clients the function constructs, by their configuration. *)
Inductive Client : Type :=
| STSClient (region : option string)
| KMSClient (region : option string) (credentials : RoleCredentials).

Inductive AuthEvent : Type :=
| AssumeRoleSent (client : Client) (input : AssumeRoleInput)
| AuthConsoleError (label : string) (e : JSError).

(** [process.env.AWS_REGION_NAME], [process.env.AWS_KMS_ROLE_ARN] and the
    STS service behind [stsClient.send]. *)
Record AuthRuntime (W : Type) : Type := mkAuthRuntime {
  env_AWS_REGION_NAME : option string;
  env_AWS_KMS_ROLE_ARN : option string;
  sts_send : W -> Client -> AssumeRoleInput -> W * Outcome AssumeRoleResponse
}.

Section Auth.

Context {W : Type} (A : AuthRuntime W).

Local Open Scope eff_scope.

Definition getKMSClient : Eff AuthEvent W (option Client) :=
  let stsClient := STSClient (env_AWS_REGION_NAME A) in
  eff_try
    (let command :=
       mkAssumeRoleInput (env_AWS_KMS_ROLE_ARN A) "DevPortalKmsSession" 3600 in
     response <- eff_call (fun w => sts_send A w stsClient command)
                   (AssumeRoleSent stsClient command) ;;
     match Credentials response with
     | Some c =>
         let roleCredentials :=
           mkRoleCredentials (AccessKeyId c) (SecretAccessKey c)
             (SessionToken c) in
         let kmsClient :=
           KMSClient (env_AWS_REGION_NAME A) roleCredentials in
         eff_ret (Some kmsClient)
     | None => eff_ret None
     end)
    (fun error =>
       eff_emit (AuthConsoleError "Error assuming role:" error) ;;;
       eff_ret None).

End Auth.

(** ** The confirm handler of [RemoveMemberDialog] *)

Module RemoveMemberDialog.

(** [TeamMemberModel], by the fields the dialog reads. *)
Record TeamMemberModel : Type := mkMember { id : string; name : string }.

Inductive DialogEvent : Type :=
| RemoveTeamMember (member_id : string)
| OnClose.

Section Dialog.

Context {W : Type}.

(** [removeTeamMember] of [useRemoveTeamMemberMutation]. *)
Variable removeTeamMember : W -> string -> W * Outcome unit.

Variable memberForRemove : option TeamMemberModel.

Local Open Scope eff_scope.

Definition handleConfirm : Eff DialogEvent W unit :=
  match memberForRemove with
  | None => eff_ret tt
  | Some member =>
      eff_call (fun w => removeTeamMember w (id member))
        (RemoveTeamMember (id member)) ;;;
      eff_emit OnClose
  end.

(** The [open] property of the dialog, [!!memberForRemove]. *)
Definition open : bool :=
  match memberForRemove with Some _ => true | None => false end.

End Dialog.

End RemoveMemberDialog.

(** ** Projections of a trace *)

(** The commands sent to KMS, in order. *)
Fixpoint commands (evs : list Event) : list Command :=
  match evs with
  | [] => []
  | Sent c :: rest => c :: commands rest
  | _ :: rest => commands rest
  end.

(** What was logged with [console.error], in order. *)
Fixpoint logged (evs : list Event) : list (string * JSError) :=
  match evs with
  | [] => []
  | ConsoleError label e :: rest => (label, e) :: logged rest
  | _ :: rest => logged rest
  end.

(** ** More stub worlds *)

Definition sts_ok (w : unit) (c : Client) (i : AssumeRoleInput)
  : unit * Outcome AssumeRoleResponse :=
  (w, Returned (mkAssumeRoleResponse
                  (Some (mkCredentials (Some "AKIA") (Some "secret")
                           (Some "token"))))).

Definition sts_down (w : unit) (c : Client) (i : AssumeRoleInput)
  : unit * Outcome AssumeRoleResponse :=
  (w, Thrown network_error).

Definition auth_stub
  (sts : unit -> Client -> AssumeRoleInput -> unit * Outcome AssumeRoleResponse)
  : AuthRuntime unit :=
  mkAuthRuntime (Some "eu-west-1")
    (Some "arn:aws:iam::123456789012:role/kms") sts.

(** A world whose [dayjs().add(...)] gives an invalid date. *)
Definition world_invalid_date : Runtime unit :=
  mkRuntime (Some "arn:aws:iam::123456789012:role/kms") 90
    (fun w => (w, 1700000000000))
    (fun t n => None)
    (fun w c => (w, client_ok c))
    (fun w kid => (w, no_store kid)).

(** A client whose CreateKey response carries no key metadata. *)
Definition client_no_key_id (c : Command) : Outcome Response :=
  response_with None None None.

(** A client whose Sign response carries no signature. *)
Definition client_no_signature (c : Command) : Outcome Response :=
  response_with None None None.

(** A store that resolves every [kid], also an absent one. *)
Definition store_any (kid : option JSON.value) : Outcome JWKRecord :=
  Returned (mkJWK "kms-1" true).

Definition remove_ok (w : unit) (member_id : string) : unit * Outcome unit :=
  (w, Returned tt).

Definition remove_fails (w : unit) (member_id : string)
  : unit * Outcome unit :=
  (w, Thrown network_error).

(* ================================================================== *)
(** * Properties: strings *)
(* ================================================================== *)

Unset Implicit Arguments.

Lemma append_nil_r (s : string) : s ++ EmptyString = s.
Proof. induction s as [|a s IH]; simpl; [reflexivity | now rewrite IH]. Qed.

Lemma append_assoc (s1 s2 s3 : string) : (s1 ++ s2) ++ s3 = s1 ++ (s2 ++ s3).
Proof. induction s1 as [|a s1 IH]; simpl; [reflexivity | now rewrite IH]. Qed.

Lemma length_append (s1 s2 : string) :
  String.length (s1 ++ s2) = (String.length s1 + String.length s2)%nat.
Proof. induction s1 as [|a s1 IH]; simpl; [reflexivity | now rewrite IH]. Qed.

Lemma count_append (c : ascii) (s1 s2 : string) :
  Str.count c (s1 ++ s2) = (Str.count c s1 + Str.count c s2)%nat.
Proof.
  induction s1 as [|a s1 IH]; simpl; [reflexivity|].
  rewrite IH. now rewrite Nat.add_assoc.
Qed.

Lemma all_append (p : ascii -> bool) (s1 s2 : string) :
  Str.all p (s1 ++ s2) = Str.all p s1 && Str.all p s2.
Proof.
  induction s1 as [|a s1 IH]; simpl; [reflexivity|].
  rewrite IH. now rewrite andb_assoc.
Qed.

(** A character rejected by [p] does not occur in a text of [p]-characters. *)
Lemma all_count_0 (p : ascii -> bool) (c : ascii) (s : string) :
  Str.all p s = true -> p c = false -> Str.count c s = 0%nat.
Proof.
  intros Hall Hc. induction s as [|a s IH]; simpl in *; [reflexivity|].
  apply andb_true_iff in Hall as [Ha Hs].
  destruct (Ascii.eqb a c) eqn:E.
  - apply Ascii.eqb_eq in E. subst a. congruence.
  - simpl. now apply IH.
Qed.

Lemma replace_all_absent (c : ascii) (by_ s : string) :
  Str.count c s = 0%nat -> Str.replace_all c by_ s = s.
Proof.
  induction s as [|a s IH]; simpl; [reflexivity|].
  destruct (Ascii.eqb a c); simpl; [discriminate|].
  intros H. now rewrite IH.
Qed.

Lemma split_absent (c : ascii) (s : string) :
  Str.count c s = 0%nat -> Str.split c s = [s].
Proof.
  induction s as [|a s IH]; simpl; [reflexivity|].
  destruct (Ascii.eqb a c); simpl; [discriminate|].
  intros H. now rewrite IH.
Qed.

Lemma split_at (c : ascii) (s1 s2 : string) :
  Str.count c s1 = 0%nat ->
  Str.split c (s1 ++ String c s2) = s1 :: Str.split c s2.
Proof.
  induction s1 as [|a s1 IH]; simpl.
  - intros _. now rewrite Ascii.eqb_refl.
  - destruct (Ascii.eqb a c); simpl; [discriminate|].
    intros H. now rewrite IH.
Qed.

(* ================================================================== *)
(** * Properties: base64 *)
(* ================================================================== *)

Lemma below_forall (k : nat) (f : N -> bool) :
  forallb f (below k) = true ->
  forall n, (n < N.of_nat k)%N -> f n = true.
Proof.
  intros H n Hn. rewrite forallb_forall in H. apply H.
  unfold below. apply in_map_iff. exists (N.to_nat n). split.
  - apply N2Nat.id.
  - apply in_seq. lia.
Qed.

Lemma below_forall2 (k : nat) (f : N -> N -> bool) :
  forallb (fun a => forallb (f a) (below k)) (below k) = true ->
  forall a c, (a < N.of_nat k)%N -> (c < N.of_nat k)%N -> f a c = true.
Proof.
  intros H a c Ha Hc.
  apply (below_forall k (f a)); [|exact Hc].
  apply (below_forall k (fun a => forallb (f a) (below k)) H a Ha).
Qed.

Lemma byte_bound (x : byte) : (Base64.b x < N.of_nat 256)%N.
Proof. unfold Base64.b. pose proof (Byte.to_N_bounded x). lia. Qed.

Lemma byte_of_b (x : byte) : Base64.byte_of (Base64.b x) = x.
Proof. unfold Base64.byte_of, Base64.b. now rewrite Byte.of_to_N. Qed.

Lemma sextets_checked (a c : N) :
  (a < N.of_nat 256)%N -> (c < N.of_nat 256)%N -> sextets_ok a c = true.
Proof.
  apply (below_forall2 256 sextets_ok). vm_compute. reflexivity.
Qed.

Lemma alphabet_checked (n : N) : (n < 64)%N -> alphabet_ok n = true.
Proof.
  intros H. apply (below_forall 64 alphabet_ok); [|exact H].
  vm_compute. reflexivity.
Qed.

Lemma sextets_facts (x y : byte) :
  let a := Base64.b x in
  let c := Base64.b y in
  let i1 := N.shiftr a 2 in
  let i2 := N.lor (N.shiftl (N.land a 3) 4) (N.shiftr c 4) in
  let i3 := N.lor (N.shiftl (N.land a 15) 2) (N.shiftr c 6) in
  let i4 := N.land c 63 in
  ((i1 < 64)%N /\ (i2 < 64)%N /\ (i3 < 64)%N /\ (i4 < 64)%N
   /\ (N.shiftl (N.land a 3) 4 < 64)%N
   /\ (N.shiftl (N.land a 15) 2 < 64)%N)
  /\ N.lor (N.shiftl i1 2) (N.shiftr i2 4) = a
  /\ N.lor (N.shiftl i1 2) (N.shiftr (N.shiftl (N.land a 3) 4) 4) = a
  /\ N.land i2 15 = N.shiftr c 4
  /\ N.lor (N.shiftl (N.shiftr a 4) 4) (N.shiftr i3 2) = a
  /\ N.lor (N.shiftl (N.shiftr a 4) 4)
       (N.shiftr (N.shiftl (N.land a 15) 2) 2) = a
  /\ N.lor (N.shiftl (N.land i3 3) 6) i4 = c.
Proof.
  intros a c i1 i2 i3 i4.
  pose proof (sextets_checked a c (byte_bound x) (byte_bound y)) as H.
  unfold sextets_ok in H. fold i1 i2 i3 i4 in H.
  repeat (apply andb_true_iff in H; destruct H as [H ?]).
  repeat match goal with
         | E : (_ <? _)%N = true |- _ => apply N.ltb_lt in E
         | E : (_ =? _)%N = true |- _ => apply N.eqb_eq in E
         end.
  repeat split; assumption.
Qed.

Lemma alphabet_facts (n : N) :
  (n < 64)%N ->
  Ascii.eqb (Base64.char_of n) "=" = false
  /\ Base64.index_std (Base64.char_of n) = Some n
  /\ Base64.index_url (tr_url (Base64.char_of n)) = Some n.
Proof.
  intros Hn. pose proof (alphabet_checked n Hn) as H.
  unfold alphabet_ok in H.
  repeat (apply andb_true_iff in H; destruct H as [H ?]).
  apply negb_true_iff in H.
  destruct (Base64.index_std (Base64.char_of n)) as [i|]; [|discriminate].
  destruct (Base64.index_url (tr_url (Base64.char_of n))) as [j|];
    [|discriminate].
  repeat match goal with
         | E : (_ =? _)%N = true |- _ => apply N.eqb_eq in E
         end.
  subst. auto.
Qed.

(** Induction on a list, three elements at a time. *)
Lemma list_ind3 {A : Type} (P : list A -> Prop) :
  P [] ->
  (forall x, P [x]) ->
  (forall x y, P [x; y]) ->
  (forall x y z l, P l -> P (x :: y :: z :: l)) ->
  forall l, P l.
Proof.
  intros H0 H1 H2 H3. fix IH 1.
  intros [|x [|y [|z l]]].
  - exact H0.
  - exact (H1 x).
  - exact (H2 x y).
  - exact (H3 x y z l (IH l)).
Qed.

Lemma url_chain_cons (c : ascii) (s : string) :
  Ascii.eqb c "=" = false ->
  url_chain (String c s) = String (tr_url c) (url_chain s).
Proof.
  intros H. unfold url_chain, tr_url. simpl. rewrite H. simpl.
  destruct (Ascii.eqb c "+") eqn:Eplus; simpl.
  - reflexivity.
  - destruct (Ascii.eqb c "/") eqn:Eslash; simpl; reflexivity.
Qed.

Lemma unpad_cons (c : ascii) (s : string) :
  Ascii.eqb c "=" = false ->
  Base64.unpad (String c s) = String c (Base64.unpad s).
Proof. intros H. unfold Base64.unpad. simpl. now rewrite H. Qed.

Ltac sextet_chars x y :=
  let F := fresh "F" in
  pose proof (sextets_facts x y) as F; cbv zeta in F;
  destruct F as [[? [? [? [? [? ?]]]]] [? [? [? [? [? ?]]]]]].

Ltac not_pad :=
  match goal with
  | |- Ascii.eqb (Base64.char_of ?n) "=" = false =>
      apply (alphabet_facts n); assumption
  end.

(** jose's encoder is the unpadded encoding over the URL-safe alphabet. *)
Lemma url_encode_enc (l : list byte) :
  base64url.encode l = enc_with tr_url l.
Proof.
  change (base64url.encode l) with (url_chain (Base64.encode l)).
  induction l as [|x|x y|x y z l IH] using list_ind3.
  - reflexivity.
  - sextet_chars x x. simpl.
    rewrite !url_chain_cons by not_pad. reflexivity.
  - sextet_chars x y. sextet_chars y y. simpl.
    rewrite !url_chain_cons by not_pad. reflexivity.
  - sextet_chars x y. sextet_chars y z. simpl.
    rewrite !url_chain_cons by not_pad. now rewrite IH.
Qed.

Lemma unpad_encode_enc (l : list byte) :
  Base64.unpad (Base64.encode l) = enc_with (fun c => c) l.
Proof.
  induction l as [|x|x y|x y z l IH] using list_ind3.
  - reflexivity.
  - sextet_chars x x. simpl.
    rewrite !unpad_cons by not_pad. reflexivity.
  - sextet_chars x y. sextet_chars y y. simpl.
    rewrite !unpad_cons by not_pad. reflexivity.
  - sextet_chars x y. sextet_chars y z. simpl.
    rewrite !unpad_cons by not_pad. now rewrite IH.
Qed.

Lemma enc_with_length (tr : ascii -> ascii) (l : list byte) :
  (List.length l <= String.length (enc_with tr l))%nat.
Proof.
  induction l as [|x|x y|x y z l IH] using list_ind3; simpl; lia.
Qed.

Lemma enc_with_empty (tr : ascii -> ascii) (l : list byte) :
  enc_with tr l = EmptyString <-> l = [].
Proof.
  split.
  - destruct l as [|x [|y [|z l]]]; simpl; intros H;
      [reflexivity | discriminate ..].
  - intros ->. reflexivity.
Qed.

(** Decoding undoes the unpadded encoding, for any alphabet whose reader
    inverts its writer on the six-bit values. *)
Lemma decode_enc_with (index : ascii -> option N) (tr : ascii -> ascii) :
  (forall n, (n < 64)%N -> index (tr (Base64.char_of n)) = Some n) ->
  forall (l : list byte) (fuel : nat),
    (List.length l < fuel)%nat ->
    Base64.decode_with index fuel (enc_with tr l) = Some l.
Proof.
  intros Htab l.
  induction l as [|x|x y|x y z l IH] using list_ind3; intros fuel Hfuel;
    (destruct fuel as [|fuel]; [simpl in Hfuel; lia|]).
  - reflexivity.
  - sextet_chars x x. cbn [enc_with Base64.decode_with].
    rewrite !Htab by assumption. cbv iota beta.
    repeat match goal with E : _ = _ |- _ => rewrite E end.
    now rewrite byte_of_b.
  - sextet_chars x y. sextet_chars y y. cbn [enc_with Base64.decode_with].
    rewrite !Htab by assumption. cbv iota beta.
    repeat match goal with E : _ = _ |- _ => rewrite E end.
    now rewrite !byte_of_b.
  - sextet_chars x y. sextet_chars y z. cbn [enc_with Base64.decode_with].
    rewrite !Htab by assumption. cbv iota beta.
    rewrite IH by (simpl in Hfuel; lia).
    repeat match goal with E : _ = _ |- _ => rewrite E end.
    now rewrite !byte_of_b.
Qed.

(** [base64url.decode] inverts [base64url.encode]. *)
Lemma base64url_roundtrip (l : list byte) :
  base64url.decode (base64url.encode l) = Some l.
Proof.
  unfold base64url.decode. rewrite url_encode_enc.
  apply decode_enc_with.
  - intros n Hn. apply (alphabet_facts n Hn).
  - pose proof (enc_with_length tr_url l). lia.
Qed.

(** The padded decoder inverts the padded encoder. *)
Lemma base64_roundtrip (l : list byte) :
  Base64.decode (Base64.encode l) = Some l.
Proof.
  unfold Base64.decode. rewrite unpad_encode_enc.
  apply decode_enc_with.
  - intros n Hn. apply (alphabet_facts n Hn).
  - pose proof (enc_with_length (fun c => c) l) as H.
    rewrite <- unpad_encode_enc in H.
    assert (String.length (Base64.unpad (Base64.encode l))
            <= String.length (Base64.encode l))%nat; [|lia].
    clear H. unfold Base64.unpad.
    generalize (Base64.encode l) as s.
    induction s as [|a s IHs]; simpl; [lia|].
    destruct (Ascii.eqb a "="); simpl; lia.
Qed.

Lemma url_char_of (n : N) :
  (n < 64)%N -> base64url.is_url_char (tr_url (Base64.char_of n)) = true.
Proof.
  intros Hn. unfold base64url.is_url_char.
  destruct (alphabet_facts n Hn) as [_ [_ ->]]. reflexivity.
Qed.

Lemma std_char_of (n : N) :
  (n < 64)%N -> is_std_char (Base64.char_of n) = true.
Proof.
  intros Hn. unfold is_std_char.
  destruct (alphabet_facts n Hn) as [_ [-> _]]. reflexivity.
Qed.

(** Every character jose's encoder writes is of the URL-safe alphabet. *)
Lemma base64url_alphabet (l : list byte) :
  Str.all base64url.is_url_char (base64url.encode l) = true.
Proof.
  rewrite url_encode_enc.
  induction l as [|x|x y|x y z l IH] using list_ind3.
  - reflexivity.
  - sextet_chars x x. simpl. now rewrite !url_char_of by assumption.
  - sextet_chars x y. sextet_chars y y. simpl.
    now rewrite !url_char_of by assumption.
  - sextet_chars x y. sextet_chars y z. simpl.
    rewrite !url_char_of by assumption. exact IH.
Qed.

(** The padded encoding is made of whole groups of four characters of the
    standard alphabet and padding. *)
Lemma base64_shape (l : list byte) :
  Str.all is_std_char (Base64.encode l) = true
  /\ (String.length (Base64.encode l) mod 4 = 0)%nat.
Proof.
  induction l as [|x|x y|x y z l [IH1 IH2]] using list_ind3.
  - split; reflexivity.
  - sextet_chars x x. split; [|reflexivity]. simpl.
    now rewrite !std_char_of by assumption.
  - sextet_chars x y. sextet_chars y y. split; [|reflexivity]. simpl.
    now rewrite !std_char_of by assumption.
  - sextet_chars x y. sextet_chars y z. split.
    + simpl. rewrite !std_char_of by assumption. exact IH1.
    + change (String.length (Base64.encode (x :: y :: z :: l)))
        with (4 + String.length (Base64.encode l))%nat.
      generalize dependent (String.length (Base64.encode l)).
      intros n Hn.
      replace (4 + n)%nat with (n + 1 * 4)%nat by lia.
      rewrite Nat.Div0.mod_add. exact Hn.
Qed.

Lemma base64_encode_empty (l : list byte) :
  Base64.encode l = EmptyString <-> l = [].
Proof.
  split.
  - destruct l as [|x [|y [|z l]]]; simpl; intros H;
      [reflexivity | discriminate ..].
  - intros ->. reflexivity.
Qed.

Lemma base64url_encode_empty (l : list byte) :
  base64url.encode l = EmptyString <-> l = [].
Proof. rewrite url_encode_enc. apply enc_with_empty. Qed.

(** The characters ['.'], ['+'], ['/'] and ['='] are not URL-safe. *)
Lemma url_text_counts (s : string) :
  Str.all base64url.is_url_char s = true ->
  Str.count "." s = 0%nat /\ Str.count "+" s = 0%nat
  /\ Str.count "/" s = 0%nat /\ Str.count "=" s = 0%nat.
Proof.
  intros H. repeat split;
    apply (all_count_0 base64url.is_url_char); auto.
Qed.

(** The replacements [signJWTWithKMSKey] applies to an encoded signature
    leave it as it is. *)
Lemma signature_replacements (l : list byte) :
  Str.replace_all "="%char EmptyString
    (Str.replace_all "/"%char "_"
       (Str.replace_all "+"%char "-" (base64url.encode l)))
  = base64url.encode l.
Proof.
  destruct (url_text_counts _ (base64url_alphabet l)) as [_ [Hp [Hs He]]].
  rewrite (replace_all_absent "+" _ _ Hp).
  rewrite (replace_all_absent "/" _ _ Hs).
  apply (replace_all_absent "=" _ _ He).
Qed.

(* ================================================================== *)
(** * Properties: decimal numerals *)
(* ================================================================== *)

Lemma fixed_length (w : nat) (n : Z) : String.length (Dec.fixed w n) = w.
Proof.
  revert n. induction w as [|w IH]; intros n; simpl; [reflexivity|].
  rewrite length_append, IH. simpl. lia.
Qed.

Lemma digit_val_digit (d : Z) :
  0 <= d < 10 -> Dec.digit_val (Dec.digit d) = Some d.
Proof.
  intros H.
  assert (C : d = 0 \/ d = 1 \/ d = 2 \/ d = 3 \/ d = 4 \/ d = 5 \/ d = 6
              \/ d = 7 \/ d = 8 \/ d = 9) by lia.
  repeat (destruct C as [-> | C]; [reflexivity|]); subst; reflexivity.
Qed.

Lemma value_acc_append (s1 s2 : string) (acc : Z) :
  Dec.value_acc acc (s1 ++ s2) =
  match Dec.value_acc acc s1 with
  | Some v => Dec.value_acc v s2
  | None => None
  end.
Proof.
  revert acc. induction s1 as [|c s1 IH]; intros acc; simpl; [reflexivity|].
  destruct (Dec.digit_val c); [apply IH | reflexivity].
Qed.

(** Reading [w] digits written for [n] continues from [acc * 10^w + n]. *)
Lemma value_acc_fixed (w : nat) (n acc : Z) :
  0 <= n < 10 ^ Z.of_nat w ->
  Dec.value_acc acc (Dec.fixed w n) = Some (acc * 10 ^ Z.of_nat w + n).
Proof.
  revert n. induction w as [|w IH]; intros n Hn.
  - simpl in *. f_equal. lia.
  - rewrite Nat2Z.inj_succ, Z.pow_succ_r in * by lia.
    cbn [Dec.fixed]. rewrite value_acc_append.
    rewrite IH by (Z.div_mod_to_equations; lia).
    cbn [Dec.value_acc].
    rewrite digit_val_digit by (Z.div_mod_to_equations; lia).
    f_equal. Z.div_mod_to_equations. nia.
Qed.

Lemma value_fixed (w : nat) (n : Z) :
  (0 < w)%nat -> 0 <= n < 10 ^ Z.of_nat w ->
  Dec.value (Dec.fixed w n) = Some n.
Proof.
  intros Hw Hn. unfold Dec.value.
  pose proof (fixed_length w n) as L.
  destruct (Dec.fixed w n) eqn:E; [simpl in L; lia|].
  rewrite <- E, value_acc_fixed by exact Hn. f_equal; lia.
Qed.

Lemma ndigits_fuel_bound (fuel w : nat) (n : Z) :
  (0 < w)%nat -> 0 <= n < 10 ^ Z.of_nat w ->
  (Dec.ndigits_fuel fuel n <= w)%nat.
Proof.
  revert w n. induction fuel as [|fuel IH]; intros w n Hw Hn; simpl; [lia|].
  destruct (Z.ltb_spec n 10); [lia|].
  destruct w as [|[|w]]; [lia | simpl in Hn; lia |].
  apply le_n_S. apply IH; [lia|].
  rewrite Nat2Z.inj_succ, Z.pow_succ_r in Hn by lia.
  Z.div_mod_to_equations. lia.
Qed.

(** A number of at most [w] digits is padded to exactly [w] digits. *)
Lemma padded_fixed (w : nat) (n : Z) :
  (0 < w)%nat -> 0 <= n < 10 ^ Z.of_nat w ->
  Dec.ToZeroPaddedDecimalString n w = Dec.fixed w n.
Proof.
  intros Hw Hn. unfold Dec.ToZeroPaddedDecimalString, Dec.ndigits.
  now rewrite Nat.max_l by (apply ndigits_fuel_bound; assumption).
Qed.

Lemma fixed_all (p : ascii -> bool) :
  (forall d, 0 <= d < 10 -> p (Dec.digit d) = true) ->
  forall (w : nat) (n : Z), Str.all p (Dec.fixed w n) = true.
Proof.
  intros Hp w. induction w as [|w IH]; intros n; simpl; [reflexivity|].
  rewrite all_append, IH. simpl.
  rewrite Hp by (Z.div_mod_to_equations; lia). reflexivity.
Qed.

Lemma digit_plain (d : Z) : 0 <= d < 10 -> json_plain (Dec.digit d) = true.
Proof.
  intros H.
  assert (C : d = 0 \/ d = 1 \/ d = 2 \/ d = 3 \/ d = 4 \/ d = 5 \/ d = 6
              \/ d = 7 \/ d = 8 \/ d = 9) by lia.
  repeat (destruct C as [-> | C]; [reflexivity|]); subst; reflexivity.
Qed.

(* ================================================================== *)
(** * Properties: dates *)
(* ================================================================== *)

Lemma DayFromYear_step (y : Z) :
  Date.DayFromYear (y + 1) - Date.DayFromYear y = Date.DaysInYear y.
Proof.
  unfold Date.DayFromYear, Date.DaysInYear.
  destruct (Z.eqb_spec (y mod 400) 0);
    [|destruct (Z.eqb_spec (y mod 100) 0);
      [|destruct (Z.eqb_spec (y mod 4) 0)]];
    Z.div_mod_to_equations; lia.
Qed.

Lemma DayFromYear_increasing (y1 y2 : Z) :
  y1 < y2 -> Date.DayFromYear y1 < Date.DayFromYear y2.
Proof. unfold Date.DayFromYear. intros H. Z.div_mod_to_equations. lia. Qed.

(** The true year lies within one year of the estimate. *)
Lemma year_estimate (d : Z) :
  let y0 := 1970 + (400 * d) / 146097 in
  Date.DayFromYear (y0 - 1) <= d < Date.DayFromYear (y0 + 2).
Proof.
  intros y0. subst y0. unfold Date.DayFromYear.
  Z.div_mod_to_equations. lia.
Qed.

(** [YearFromTime t] is the year [t] falls in ... *)
Lemma YearFromTime_bounds (t : Z) :
  Date.DayFromYear (Date.YearFromTime t) <= Date.Day t
  < Date.DayFromYear (Date.YearFromTime t + 1).
Proof.
  unfold Date.YearFromTime.
  pose proof (year_estimate (Date.Day t)) as E. cbv zeta in E.
  set (y0 := 1970 + (400 * Date.Day t) / 146097) in *.
  destruct (Z.leb_spec (Date.DayFromYear (y0 + 1)) (Date.Day t)).
  - replace (y0 + 1 + 1) with (y0 + 2) by lia. lia.
  - destruct (Z.leb_spec (Date.DayFromYear y0) (Date.Day t)).
    + lia.
    + replace (y0 - 1 + 1) with y0 by lia. lia.
Qed.

(** ... which is how ECMA-262 defines it: the largest [y] whose start is
    not after [t]. *)
Lemma YearFromTime_largest (t : Z) :
  Date.TimeFromYear (Date.YearFromTime t) <= t
  /\ forall y, Date.TimeFromYear y <= t -> y <= Date.YearFromTime t.
Proof.
  pose proof (YearFromTime_bounds t) as [Hlo Hhi].
  unfold Date.TimeFromYear, Date.Day, Date.msPerDay in *.
  split.
  - Z.div_mod_to_equations. lia.
  - intros y Hy.
    destruct (Z.le_gt_cases y (Date.YearFromTime t)) as [|Hgt]; [assumption|].
    assert (Date.DayFromYear (Date.YearFromTime t + 1) <= Date.DayFromYear y).
    { destruct (Z.eq_dec y (Date.YearFromTime t + 1)) as [->|]; [lia|].
      apply Z.lt_le_incl, DayFromYear_increasing. lia. }
    Z.div_mod_to_equations. lia.
Qed.

Lemma DayWithinYear_bounds (t : Z) :
  0 <= Date.DayWithinYear t < 365 + Date.InLeapYear t.
Proof.
  pose proof (YearFromTime_bounds t) as [Hlo Hhi].
  pose proof (DayFromYear_step (Date.YearFromTime t)) as Hstep.
  unfold Date.DayWithinYear, Date.InLeapYear.
  unfold Date.DaysInYear in *.
  destruct (Date.YearFromTime t mod 400 =? 0);
    [|destruct (Date.YearFromTime t mod 100 =? 0);
      [|destruct (Date.YearFromTime t mod 4 =? 0)]];
    simpl; lia.
Qed.

Lemma InLeapYear_cases (t : Z) :
  Date.InLeapYear t = 0 \/ Date.InLeapYear t = 1.
Proof.
  unfold Date.InLeapYear.
  destruct (Date.DaysInYear (Date.YearFromTime t) =? 366); auto.
Qed.

Lemma MonthFromTime_bounds (t : Z) : 0 <= Date.MonthFromTime t <= 11.
Proof.
  unfold Date.MonthFromTime.
  repeat match goal with
         | |- context [if ?c then _ else _] => destruct c
         end; lia.
Qed.

Lemma DateFromTime_bounds (t : Z) : 1 <= Date.DateFromTime t <= 31.
Proof.
  pose proof (DayWithinYear_bounds t) as B.
  destruct (InLeapYear_cases t) as [L | L];
    unfold Date.DateFromTime, Date.MonthFromTime; rewrite L in *;
    repeat match goal with
           | |- context [if (?a <? ?b) then _ else _] =>
               destruct (Z.ltb_spec a b)
           end;
    cbn in *; lia.
Qed.

(** The fields of a time value make that time value again. *)
Lemma make_fields (t : Z) :
  Date.make (Date.YearFromTime t) (Date.MonthFromTime t) (Date.DateFromTime t)
    (Date.HourFromTime t) (Date.MinFromTime t) (Date.SecFromTime t)
    (Date.msFromTime t) = t.
Proof.
  unfold Date.make, Date.DateFromTime.
  change (Date.isLeap (Date.YearFromTime t)) with (Date.InLeapYear t).
  unfold Date.DayWithinYear, Date.Day, Date.HourFromTime, Date.MinFromTime,
    Date.SecFromTime, Date.msFromTime, Date.msPerDay.
  generalize (Date.month_start (Date.InLeapYear t) (Date.MonthFromTime t)).
  generalize (Date.DayFromYear (Date.YearFromTime t)).
  intros f m. Z.div_mod_to_equations. lia.
Qed.

(** The years of the valid time values. *)
Lemma valid_year (t : Z) :
  Date.valid t -> -271821 <= Date.YearFromTime t <= 275760.
Proof.
  intros [Hlo Hhi]. pose proof (YearFromTime_bounds t) as [Blo Bhi].
  unfold Date.maxTime, Date.Day, Date.msPerDay in *.
  assert (D : -100000000 <= t / 86400000 <= 100000000)
    by (Z.div_mod_to_equations; lia).
  revert Blo Bhi. generalize (Date.YearFromTime t) as y. intros y.
  unfold Date.DayFromYear. intros Blo Bhi.
  Z.div_mod_to_equations. lia.
Qed.

(* ================================================================== *)
(** * Properties: the ISO text of a time value *)
(* ================================================================== *)

Lemma substring_prefix (a rest : string) :
  String.substring 0 (String.length a) (a ++ rest) = a.
Proof.
  induction a as [|c a IH]; simpl.
  - destruct rest; reflexivity.
  - now rewrite IH.
Qed.

Lemma substring_all (s : string) :
  String.substring 0 (String.length s) s = s.
Proof. induction s as [|c s IH]; simpl; [reflexivity | now rewrite IH]. Qed.

Lemma substring_suffix (a rest : string) :
  String.substring (String.length a)
    (String.length (a ++ rest) - String.length a) (a ++ rest) = rest.
Proof.
  induction a as [|c a IH]; simpl.
  - rewrite Nat.sub_0_r. apply substring_all.
  - exact IH.
Qed.

(** A field of [w] digits is read back, and the rest is left. *)
Lemma field_fixed (w : nat) (n : Z) (rest : string) :
  (0 < w)%nat -> 0 <= n < 10 ^ Z.of_nat w ->
  Date.field w (Dec.fixed w n ++ rest) = Some (n, rest).
Proof.
  intros Hw Hn.
  assert (G : forall a, Dec.value a = Some n ->
                Date.field (String.length a) (a ++ rest) = Some (n, rest)).
  { intros a Ha. unfold Date.field.
    now rewrite substring_prefix, Nat.eqb_refl, Ha, substring_suffix. }
  rewrite <- (fixed_length w n) at 1.
  apply G, value_fixed; assumption.
Qed.

Lemma expect_literal (c : ascii) (s : string) :
  Date.expect c (String c EmptyString ++ s) = Some s.
Proof. simpl. now rewrite Ascii.eqb_refl. Qed.

(** A numeral does not start with a sign. *)
Lemma year_field_unsigned (c : ascii) (s : string) :
  Dec.digit_val c <> None ->
  Date.year_field (String c s) = Date.field 4 (String c s).
Proof.
  intros H.
  destruct c as [[] [] [] [] [] [] [] []];
    try reflexivity; exfalso; apply H; reflexivity.
Qed.

Lemma fixed_first_digit (w : nat) (n : Z) (rest : string) :
  exists c s, Dec.fixed (S w) n ++ rest = String c s /\ Dec.digit_val c <> None.
Proof.
  revert n rest. induction w as [|w IH]; intros n rest.
  - exists (Dec.digit (n mod 10)), rest. split; [reflexivity|].
    rewrite digit_val_digit by (Z.div_mod_to_equations; lia). discriminate.
  - destruct (IH (n / 10) (String (Dec.digit (n mod 10)) rest))
      as (c & s & E & Hc).
    exists c, s. split; [|exact Hc].
    rewrite <- E. change (Dec.fixed (S (S w)) n)
      with (Dec.fixed (S w) (n / 10)
              ++ String (Dec.digit (n mod 10)) EmptyString).
    now rewrite append_assoc.
Qed.

(** The text of a valid time value reads back as that time value. *)
Lemma parse_iso_text (t : Z) :
  Date.valid t -> Date.parse_iso (Date.iso_text t) = Some t.
Proof.
  intros Hv.
  pose proof (valid_year t Hv) as Hy.
  pose proof (MonthFromTime_bounds t) as Hm.
  pose proof (DateFromTime_bounds t) as Hd.
  pose proof (make_fields t) as Hmake.
  unfold Date.iso_text, Date.parse_iso, Date.pad.
  assert (Hh : 0 <= Date.HourFromTime t < 24)
    by (unfold Date.HourFromTime; Z.div_mod_to_equations; lia).
  assert (Hmi : 0 <= Date.MinFromTime t < 60)
    by (unfold Date.MinFromTime; Z.div_mod_to_equations; lia).
  assert (Hs : 0 <= Date.SecFromTime t < 60)
    by (unfold Date.SecFromTime; Z.div_mod_to_equations; lia).
  assert (Hms : 0 <= Date.msFromTime t < 1000)
    by (unfold Date.msFromTime; Z.div_mod_to_equations; lia).
  rewrite (padded_fixed 2 (Date.MonthFromTime t + 1)) by (simpl; lia).
  rewrite (padded_fixed 2 (Date.DateFromTime t)) by (simpl; lia).
  rewrite (padded_fixed 2 (Date.HourFromTime t)) by (simpl; lia).
  rewrite (padded_fixed 2 (Date.MinFromTime t)) by (simpl; lia).
  rewrite (padded_fixed 2 (Date.SecFromTime t)) by (simpl; lia).
  rewrite (padded_fixed 3 (Date.msFromTime t)) by (simpl; lia).
  set (y := Date.YearFromTime t) in *.
  match goal with
  | |- match Date.year_field (_ ++ ?r) with _ => _ end = _ =>
      assert (Hyear : forall z, z = y ->
                Date.year_field
                  ((if (0 <=? y) && (y <=? 9999)
                    then Dec.ToZeroPaddedDecimalString y 4
                    else (if 0 <=? y then "+" else "-")
                           ++ Dec.ToZeroPaddedDecimalString (Z.abs y) 6) ++ r)
                = Some (z, r))
  end.
  { intros z ->.
    destruct (Z.leb_spec 0 y); cbn [andb].
    - destruct (Z.leb_spec y 9999).
      + rewrite padded_fixed by (simpl; lia).
        match goal with
        | |- Date.year_field (Dec.fixed 4 y ++ ?r) = _ =>
            destruct (fixed_first_digit 3 y r) as (c & s & E & Hc)
        end.
        rewrite E, year_field_unsigned by exact Hc.
        rewrite <- E. apply field_fixed; simpl; lia.
      + rewrite padded_fixed by (simpl; lia).
        cbn [append Date.year_field].
        replace (Z.abs y) with y by lia.
        apply field_fixed; simpl; lia.
    - rewrite padded_fixed by (simpl; lia).
      cbn [append Date.year_field].
      rewrite field_fixed by (simpl; lia). f_equal. f_equal. lia. }
  rewrite (Hyear y eq_refl). clear Hyear.
  repeat (rewrite expect_literal; rewrite field_fixed by (simpl; lia)).
  cbn [append].
  replace (Date.MonthFromTime t + 1 - 1) with (Date.MonthFromTime t) by lia.
  now rewrite Hmake.
Qed.

(** Different valid time values have different texts. *)
Lemma iso_text_injective (t1 t2 : Z) :
  Date.valid t1 -> Date.valid t2 ->
  Date.iso_text t1 = Date.iso_text t2 -> t1 = t2.
Proof.
  intros H1 H2 E.
  pose proof (parse_iso_text t1 H1) as P1.
  rewrite E, parse_iso_text in P1 by exact H2. congruence.
Qed.

(* ================================================================== *)
(** * Properties: reading serialized JSON back *)
(* ================================================================== *)

Lemma ndigits_fuel_positive (fuel : nat) (n : Z) :
  (0 < Dec.ndigits_fuel fuel n)%nat.
Proof. destruct fuel; simpl; [lia|]. destruct (n <? 10); lia. Qed.

Lemma ndigits_fuel_enough (fuel : nat) (n : Z) :
  0 <= n < 2 ^ (Z.of_nat fuel + 1) ->
  n < 10 ^ Z.of_nat (Dec.ndigits_fuel fuel n).
Proof.
  revert n. induction fuel as [|fuel IH]; intros n Hn.
  - simpl in *. lia.
  - cbn [Dec.ndigits_fuel]. destruct (Z.ltb_spec n 10); [simpl; lia|].
    rewrite Nat2Z.inj_succ, Z.pow_succ_r by lia.
    assert (n / 10 < 10 ^ Z.of_nat (Dec.ndigits_fuel fuel (n / 10))).
    { apply IH. rewrite Nat2Z.inj_succ in Hn.
      replace (Z.succ (Z.of_nat fuel) + 1) with (Z.succ (Z.of_nat fuel + 1))
        in Hn by lia.
      rewrite Z.pow_succ_r in Hn by lia.
      Z.div_mod_to_equations. lia. }
    Z.div_mod_to_equations. lia.
Qed.

(** The padded numeral of a number reads as that number. *)
Lemma padded_value (n : Z) (w : nat) :
  0 <= n -> Dec.value (Dec.ToZeroPaddedDecimalString n w) = Some n.
Proof.
  intros Hn. unfold Dec.ToZeroPaddedDecimalString.
  pose proof (ndigits_fuel_positive (Z.to_nat (Z.log2 n)) n) as Hpos.
  assert (Hlt : n < 10 ^ Z.of_nat (Dec.ndigits n)).
  { unfold Dec.ndigits. apply ndigits_fuel_enough.
    destruct (Z.eq_dec n 0) as [->|Hne]; [simpl; lia|].
    rewrite Z2Nat.id by apply Z.log2_nonneg.
    replace (Z.log2 n + 1) with (Z.succ (Z.log2 n)) by lia.
    pose proof (Z.log2_spec n). lia. }
  apply value_fixed.
  - unfold Dec.ndigits. lia.
  - split; [exact Hn|].
    eapply Z.lt_le_trans; [exact Hlt|].
    apply Z.pow_le_mono_r; lia.
Qed.

Lemma digit_is_digit (d : Z) :
  0 <= d < 10 -> Reader.is_digit (Dec.digit d) = true.
Proof.
  intros H. unfold Reader.is_digit. now rewrite digit_val_digit.
Qed.

Lemma span_digits_numeral (ds rest : string) :
  Str.all Reader.is_digit ds = true -> starts_plain rest = true ->
  Reader.span_digits (ds ++ rest) = (ds, rest).
Proof.
  intros Hds Hrest. induction ds as [|c ds IH]; simpl in *.
  - destruct rest as [|c r]; [reflexivity|]. simpl in *.
    apply negb_true_iff in Hrest. now rewrite Hrest.
  - apply andb_true_iff in Hds as [Hc Hds]. rewrite Hc, (IH Hds). reflexivity.
Qed.

Lemma number_padded (n : Z) (w : nat) (rest : string) :
  0 <= n -> starts_plain rest = true ->
  Reader.number (Dec.ToZeroPaddedDecimalString n w ++ rest) = Some (n, rest).
Proof.
  intros Hn Hrest. unfold Reader.number.
  rewrite span_digits_numeral; [|apply fixed_all, digit_is_digit | exact Hrest].
  now rewrite padded_value.
Qed.

(** One written character is read back as itself. *)
Lemma chars_escape_char (c : ascii) (tail : string) :
  Reader.chars (JSON.escape_char c ++ tail) =
  match Reader.chars tail with
  | Some (x, r) => Some (String c x, r)
  | None => None
  end.
Proof.
  destruct c as [[] [] [] [] [] [] [] []]; reflexivity.
Qed.

Lemma chars_escape (s rest : string) :
  Reader.chars (JSON.escape s ++ JSON.dq ++ rest) = Some (s, rest).
Proof.
  induction s as [|c s IH]; cbn [JSON.escape].
  - reflexivity.
  - now rewrite append_assoc, chars_escape_char, IH.
Qed.

(** A quoted string is read back, from its opening quote on. *)
Lemma value_quote (fuel : nat) (s rest : string) :
  Reader.value (S fuel) (JSON.quote s ++ rest) = Some (JSON.Str s, rest).
Proof.
  unfold JSON.quote. rewrite !append_assoc.
  change (JSON.dq ++ JSON.escape s ++ JSON.dq ++ rest)
    with (String "034" (JSON.escape s ++ JSON.dq ++ rest)).
  change (Reader.value (S fuel)
            (String "034" (JSON.escape s ++ JSON.dq ++ rest)))
    with (match Reader.chars (JSON.escape s ++ JSON.dq ++ rest) with
          | Some (x, r) => Some (JSON.Str x, r)
          | None => None
          end).
  now rewrite chars_escape.
Qed.

(** White space is not skipped before a character that is none. *)
Ltac skip_literal :=
  repeat match goal with
         | |- context [Reader.skip_ws (String ?c ?s)] =>
             change (Reader.skip_ws (String c s)) with (String c s)
         end;
  cbv beta iota.

Lemma skip_ws_append (w s : string) :
  Str.all Reader.is_ws w = true -> Reader.skip_ws (w ++ s) = Reader.skip_ws s.
Proof.
  induction w as [|c w IH]; simpl; [reflexivity|].
  intros H. apply andb_true_iff in H as [Hc Hw]. now rewrite Hc, IH.
Qed.

(** Leading white space does not change what is read. *)
Lemma value_ws (fuel : nat) (w s : string) :
  Str.all Reader.is_ws w = true ->
  Reader.value fuel (w ++ s) = Reader.value fuel s.
Proof.
  intros H. destruct fuel; [reflexivity|].
  cbn [Reader.value]. now rewrite skip_ws_append.
Qed.

Lemma items_ws (fuel : nat) (w s : string) :
  Str.all Reader.is_ws w = true ->
  Reader.items fuel (w ++ s) = Reader.items fuel s.
Proof.
  intros H. destruct fuel; [reflexivity|].
  cbn [Reader.items]. now rewrite value_ws.
Qed.

Lemma entries_ws (fuel : nat) (w s : string) :
  Str.all Reader.is_ws w = true ->
  Reader.entries fuel (w ++ s) = Reader.entries fuel s.
Proof.
  intros H. destruct fuel; [reflexivity|].
  cbn [Reader.entries]. now rewrite skip_ws_append.
Qed.

Lemma opener_not_ws (c : ascii) (s : string) :
  opener c = true -> Reader.skip_ws (String c s) = String c s.
Proof.
  intros H. destruct c as [[] [] [] [] [] [] [] []];
    try discriminate H; reflexivity.
Qed.

Lemma value_array (fuel : nat) (s : string) (c : ascii) (s' : string) :
  Reader.skip_ws s = String c s' -> opener c = true ->
  Reader.value (S fuel) (String "[" s) =
  match Reader.items fuel s with
  | Some (vs, r) => Some (JSON.Array vs, r)
  | None => None
  end.
Proof.
  intros E H.
  change (Reader.value (S fuel) (String "[" s))
    with (match Reader.skip_ws s with
          | String "]" r => Some (JSON.Array [], r)
          | _ =>
              match Reader.items fuel s with
              | Some (vs, r) => Some (JSON.Array vs, r)
              | None => None
              end
          end).
  rewrite E.
  destruct c as [[] [] [] [] [] [] [] []]; try discriminate H; reflexivity.
Qed.

Lemma value_object (fuel : nat) (s : string) (c : ascii) (s' : string) :
  Reader.skip_ws s = String c s' -> opener c = true ->
  Reader.value (S fuel) (String "{" s) =
  match Reader.entries fuel s with
  | Some (es, r) => Some (JSON.Object es, r)
  | None => None
  end.
Proof.
  intros E H.
  change (Reader.value (S fuel) (String "{" s))
    with (match Reader.skip_ws s with
          | String "}" r => Some (JSON.Object [], r)
          | _ =>
              match Reader.entries fuel s with
              | Some (es, r) => Some (JSON.Object es, r)
              | None => None
              end
          end).
  rewrite E.
  destruct c as [[] [] [] [] [] [] [] []]; try discriminate H; reflexivity.
Qed.

Lemma value_numeral (fuel : nat) (c : ascii) (s : string) :
  Reader.is_digit c = true ->
  Reader.value (S fuel) (String c s) =
  match Reader.number (String c s) with
  | Some (n, r) => Some (JSON.Number n, r)
  | None => None
  end.
Proof.
  intros H. destruct c as [[] [] [] [] [] [] [] []];
    try discriminate H; reflexivity.
Qed.

Lemma join_cons2 (sep x y : string) (l : list string) :
  JSON.join sep (x :: y :: l) = x ++ sep ++ JSON.join sep (y :: l).
Proof. reflexivity. Qed.

Lemma serialize_array_cons (gap indent : string) (x : JSON.value)
  (xs : list JSON.value) :
  JSON.serialize gap indent (JSON.Array (x :: xs))
  = "[" ++ ws_before_item gap indent
        ++ JSON.join (String "," (ws_before_item gap indent))
             (List.map (JSON.serialize gap (indent ++ gap)) (x :: xs))
        ++ ws_before_close gap indent ++ "]".
Proof.
  destruct gap as [|g gap]; [reflexivity|].
  cbn [JSON.serialize List.map ws_before_item ws_before_close].
  rewrite !append_assoc. reflexivity.
Qed.

Lemma serialize_object_cons (gap indent : string) (e : string * JSON.value)
  (es : list (string * JSON.value)) :
  JSON.serialize gap indent (JSON.Object (e :: es))
  = "{" ++ ws_before_item gap indent
        ++ JSON.join (String "," (ws_before_item gap indent))
             (List.map (serialize_entry gap (indent ++ gap)) (e :: es))
        ++ ws_before_close gap indent ++ "}".
Proof.
  destruct gap as [|g gap]; [reflexivity|].
  cbn [JSON.serialize List.map ws_before_item ws_before_close].
  rewrite !append_assoc. reflexivity.
Qed.

Lemma serialize_opener (gap indent : string) (v : JSON.value) :
  exists c s, JSON.serialize gap indent v = String c s /\ opener c = true.
Proof.
  destruct v as [|[]|n|s|[|x xs]|[|e es]];
    try (eexists _, _; split; [reflexivity | reflexivity]).
  - cbn [JSON.serialize]. unfold Dec.of_Z.
    destruct (n <? 0).
    + eexists _, _. split; reflexivity.
    + unfold Dec.ToZeroPaddedDecimalString.
      destruct (Nat.max 1 (Dec.ndigits n)) as [|k] eqn:E; [lia|].
      pose proof (fixed_first_digit k n EmptyString) as (c & s & Hcs & Hc).
      rewrite append_nil_r in Hcs. exists c, s. split; [exact Hcs|].
      unfold opener, Reader.is_digit.
      destruct (Dec.digit_val c); [|congruence].
      now rewrite !orb_true_r.
  - rewrite serialize_array_cons. eexists _, _. split; reflexivity.
  - rewrite serialize_object_cons. eexists _, _. split; reflexivity.
Qed.

Section ReadBack.

Variable gap : string.
Hypothesis gap_ws : Str.all Reader.is_ws gap = true.

Lemma ws_before_item_ws (indent : string) :
  Str.all Reader.is_ws indent = true ->
  Str.all Reader.is_ws (ws_before_item gap indent) = true.
Proof.
  intros H. unfold ws_before_item. pose proof gap_ws as G.
  destruct gap; [reflexivity|].
  rewrite !all_append, H, G. reflexivity.
Qed.

Lemma ws_before_close_ws (indent : string) :
  Str.all Reader.is_ws indent = true ->
  Str.all Reader.is_ws (ws_before_close gap indent) = true.
Proof.
  intros H. unfold ws_before_close. destruct gap; [reflexivity|].
  rewrite !all_append, H. reflexivity.
Qed.

Lemma inner_ws (indent : string) :
  Str.all Reader.is_ws indent = true ->
  Str.all Reader.is_ws (indent ++ gap) = true.
Proof. intros H. now rewrite all_append, H, gap_ws. Qed.

(** What follows a value inside an array or object does not continue a
    numeral, and leads to the closing bracket. *)
Lemma close_plain (indent : string) (c : ascii) (rest : string) :
  Str.all Reader.is_ws indent = true ->
  Reader.is_digit c = false ->
  starts_plain (ws_before_close gap indent ++ String c rest) = true.
Proof.
  intros H Hc. unfold ws_before_close.
  destruct gap; simpl; [now rewrite Hc | reflexivity].
Qed.

Lemma skip_to_close (indent : string) (c : ascii) (rest : string) :
  Str.all Reader.is_ws indent = true ->
  Reader.is_ws c = false ->
  Reader.skip_ws (ws_before_close gap indent ++ String c rest)
  = String c rest.
Proof.
  intros H Hc. rewrite skip_ws_append by now apply ws_before_close_ws.
  simpl. now rewrite Hc.
Qed.

(** Reading undoes writing, for values, array items and object entries,
    given fuel beyond the length of the text. *)
Lemma read_back (fuel : nat) :
  (forall v indent rest,
      Str.all Reader.is_ws indent = true ->
      (String.length (JSON.serialize gap indent v) < fuel)%nat ->
      starts_plain rest = true ->
      Reader.value fuel (JSON.serialize gap indent v ++ rest)
      = Some (v, rest))
  /\ (forall x xs indent inner rest,
         Str.all Reader.is_ws indent = true ->
         Str.all Reader.is_ws inner = true ->
         (String.length
            (JSON.join (String "," (ws_before_item gap indent))
               (List.map (JSON.serialize gap inner) (x :: xs))) + 1
          < fuel)%nat ->
         Reader.items fuel
           (JSON.join (String "," (ws_before_item gap indent))
              (List.map (JSON.serialize gap inner) (x :: xs))
              ++ ws_before_close gap indent ++ String "]" rest)
         = Some (x :: xs, rest))
  /\ (forall e es indent inner rest,
         Str.all Reader.is_ws indent = true ->
         Str.all Reader.is_ws inner = true ->
         (String.length
            (JSON.join (String "," (ws_before_item gap indent))
               (List.map (serialize_entry gap inner) (e :: es))) + 1
          < fuel)%nat ->
         Reader.entries fuel
           (JSON.join (String "," (ws_before_item gap indent))
              (List.map (serialize_entry gap inner) (e :: es))
              ++ ws_before_close gap indent ++ String "}" rest)
         = Some (e :: es, rest)).
Proof.
  induction fuel as [|fuel (IHv & IHi & IHe)].
  { repeat split; intros; lia. }
  split; [|split].
  - intros v indent rest Hind Hlen Hrest.
    destruct v as [|[]|n|s|[|x xs]|[|e es]]; try reflexivity.
    + (* number *)
      cbn [JSON.serialize]. unfold Dec.of_Z.
      destruct (Z.ltb_spec n 0).
      * rewrite append_assoc.
        change ("-" ++ ?x) with (String "-" x).
        change (Reader.value (S fuel)
                  (String "-" (Dec.ToZeroPaddedDecimalString (- n) 1 ++ rest)))
          with (match Reader.number
                        (Dec.ToZeroPaddedDecimalString (- n) 1 ++ rest) with
                | Some (m, r) => Some (JSON.Number (- m), r)
                | None => None
                end).
        rewrite number_padded by (lia || assumption).
        now rewrite Z.opp_involutive.
      * pose proof (serialize_opener gap indent (JSON.Number n))
          as (c & s & E & _).
        cbn [JSON.serialize] in E. unfold Dec.of_Z in E.
        destruct (Z.ltb_spec n 0); [lia|].
        assert (Hc : Reader.is_digit c = true).
        { assert (A : Str.all Reader.is_digit
                        (Dec.ToZeroPaddedDecimalString n 1) = true)
            by (apply fixed_all, digit_is_digit).
          rewrite E in A. simpl in A. now apply andb_true_iff in A as [A _]. }
        pose proof (number_padded n 1 rest ltac:(lia) Hrest) as Hnum.
        rewrite E in *. cbn [append] in *.
        now rewrite value_numeral, Hnum.
    + (* string *)
      apply value_quote.
    + (* array *)
      rewrite serialize_array_cons in *.
      rewrite !append_assoc. cbn [append].
      rewrite !length_append in Hlen. cbn [String.length] in Hlen.
      pose proof (serialize_opener gap (indent ++ gap) x) as (c & s & E & Hc).
      assert (Hstart : exists s',
                 JSON.join (String "," (ws_before_item gap indent))
                   (List.map (JSON.serialize gap (indent ++ gap)) (x :: xs))
                   ++ ws_before_close gap indent ++ String "]" rest
                 = String c s').
      { destruct xs as [|y ys]; cbn [List.map].
        - cbn [JSON.join]. rewrite E. eexists. reflexivity.
        - rewrite join_cons2, E. eexists. reflexivity. }
      destruct Hstart as (s' & Hs').
      rewrite (value_array fuel _ c s');
        [|rewrite skip_ws_append by (now apply ws_before_item_ws);
          rewrite Hs'; now apply opener_not_ws | exact Hc].
      rewrite items_ws by now apply ws_before_item_ws.
      rewrite IHi; [reflexivity | exact Hind | now apply inner_ws | lia].
    + (* object *)
      rewrite serialize_object_cons in *.
      rewrite !append_assoc. cbn [append].
      rewrite !length_append in Hlen. cbn [String.length] in Hlen.
      assert (Hstart : exists s',
                 JSON.join (String "," (ws_before_item gap indent))
                   (List.map (serialize_entry gap (indent ++ gap)) (e :: es))
                   ++ ws_before_close gap indent ++ String "}" rest
                 = String "034" s').
      { destruct es as [|y ys]; cbn [List.map].
        - cbn [JSON.join]. eexists. reflexivity.
        - rewrite join_cons2. eexists. reflexivity. }
      destruct Hstart as (s' & Hs').
      rewrite (value_object fuel _ "034" s');
        [|rewrite skip_ws_append by (now apply ws_before_item_ws);
          rewrite Hs'; reflexivity | reflexivity].
      rewrite entries_ws by now apply ws_before_item_ws.
      rewrite IHe; [reflexivity | exact Hind | now apply inner_ws | lia].
  - intros x xs indent inner rest Hind Hinner Hlen. cbn [Reader.items].
    destruct xs as [|y ys]; cbn [List.map] in *.
    + cbn [JSON.join] in *.
      rewrite IHv; [|exact Hinner | lia | now apply close_plain].
      now rewrite skip_to_close.
    + rewrite join_cons2 in *. rewrite !append_assoc. cbn [append].
      rewrite !length_append in Hlen. cbn [String.length] in Hlen.
      rewrite IHv; [|exact Hinner | lia | reflexivity]. skip_literal.
      rewrite items_ws by now apply ws_before_item_ws.
      change (List.map (JSON.serialize gap inner) (y :: ys))
        with (JSON.serialize gap inner y
                :: List.map (JSON.serialize gap inner) ys) in IHi.
      rewrite IHi; [reflexivity | exact Hind | exact Hinner | lia].
  - intros e es indent inner rest Hind Hinner Hlen.
    destruct e as [k v].
    assert (Hentry : forall tail,
              (String.length (JSON.serialize gap inner v) < fuel)%nat ->
              starts_plain tail = true ->
              Reader.entries (S fuel) (serialize_entry gap inner (k, v) ++ tail)
              = match Reader.skip_ws tail with
                | String "," r3 =>
                    match Reader.entries fuel r3 with
                    | Some (es, r4) => Some ((k, v) :: es, r4)
                    | None => None
                    end
                | String "}" r3 => Some ([(k, v)], r3)
                | _ => None
                end).
    { intros tail Lv Htail. unfold serialize_entry, JSON.quote.
      cbn [fst snd]. rewrite !append_assoc.
      change (JSON.dq ++ ?x) with (String "034" x).
      cbn [Reader.entries]. skip_literal.
      change (N_of_ascii "034" =? 34)%N with true. cbv iota.
      rewrite chars_escape.
      assert (Hcolon : forall t,
                match Reader.skip_ws (colon gap ++ t) with
                | String ":" r1 => Reader.value fuel r1
                | _ => None
                end = Reader.value fuel t).
      { intros t. unfold colon. destruct gap; cbn [append]; skip_literal.
        - reflexivity.
        - apply (value_ws fuel " " t). reflexivity. }
      specialize (Hcolon (JSON.serialize gap inner v ++ tail)).
      rewrite IHv in Hcolon by assumption.
      destruct (Reader.skip_ws
                  (colon gap ++ JSON.serialize gap inner v ++ tail))
        as [|c r1]; [discriminate|].
      destruct c as [[] [] [] [] [] [] [] []];
        try discriminate Hcolon.
      now rewrite Hcolon. }
    destruct es as [|y ys]; cbn [List.map] in *.
    + cbn [JSON.join] in *.
      assert (Lv : (String.length (JSON.serialize gap inner v) < fuel)%nat).
      { unfold serialize_entry in Hlen. cbn [fst snd] in Hlen.
        rewrite !length_append in Hlen. lia. }
      rewrite Hentry; [|exact Lv | now apply close_plain].
      now rewrite skip_to_close.
    + rewrite join_cons2 in *. rewrite !append_assoc. cbn [append].
      rewrite !length_append in Hlen. cbn [String.length] in Hlen.
      assert (Lv : (String.length (JSON.serialize gap inner v) < fuel)%nat).
      { unfold serialize_entry in Hlen. cbn [fst snd] in Hlen.
        rewrite !length_append in Hlen. lia. }
      rewrite Hentry; [|exact Lv | reflexivity]. skip_literal.
      rewrite entries_ws by now apply ws_before_item_ws.
      change (List.map (serialize_entry gap inner) (y :: ys))
        with (serialize_entry gap inner y
                :: List.map (serialize_entry gap inner) ys) in IHe.
      rewrite IHe; [reflexivity | exact Hind | exact Hinner | lia].
Qed.

(** Reading a serialization made with the gap gives the value back. *)
Lemma parse_serialize (v : JSON.value) :
  Reader.parse (JSON.serialize gap EmptyString v) = Some v.
Proof.
  unfold Reader.parse.
  destruct (read_back
              (S (S (String.length (JSON.serialize gap EmptyString v)))))
    as [H _].
  specialize (H v EmptyString EmptyString).
  rewrite append_nil_r in H.
  now rewrite H by (reflexivity || lia).
Qed.

End ReadBack.

Lemma parse_stringify (v : JSON.value) :
  Reader.parse (JSON.stringify v) = Some v.
Proof. apply (parse_serialize EmptyString). reflexivity. Qed.

Lemma parse_stringify2 (v : JSON.value) :
  Reader.parse (JSON.stringify2 v) = Some v.
Proof. apply (parse_serialize "  "). reflexivity. Qed.


(* ================================================================== *)
(** * Properties: [signJWTWithKMSKey] *)
(* ================================================================== *)

Section Sign.

Context {W : Type} (R : Runtime W).
Variables header payload : list (string * JSON.value).

(** Every run of [signJWTWithKMSKey], by what the store and the client
    answer. *)
Lemma sign_run (w : W) :
  run (signJWTWithKMSKey R header payload) w =
  match jwks_retrieveJWK R w (JSON.lookup "kid" header) with
  | (w1, Thrown e) =>
      (mkState w1 [JWKLookup (JSON.lookup "kid" header);
                   ConsoleError "Error signing JWT:" e],
       Returned None)
  | (w1, Returned jwk) =>
      let cmd := sign_command (kms_id jwk) header payload in
      match kms_send R w1 cmd with
      | (w2, Thrown e) =>
          (mkState w2 [JWKLookup (JSON.lookup "kid" header); Sent cmd;
                       ConsoleError "Error signing JWT:" e],
           Returned None)
      | (w2, Returned r) =>
          (mkState w2 [JWKLookup (JSON.lookup "kid" header); Sent cmd],
           Returned
             match Signature r with
             | Some signature =>
                 Some (signing_input header payload
                         ++ "." ++ base64url.encode signature)
             | None => None
             end)
      end
  end.
Proof.
  unfold run, signJWTWithKMSKey, try_catch, bind, retrieveJWK, send,
    console_error, emit, ret, sign_command, signing_input.
  cbn [world trace app].
  destruct (jwks_retrieveJWK R w (JSON.lookup "kid" header)) as [w1 [jwk|e]];
    cbn [world trace app]; [|reflexivity].
  match goal with
  | |- context [kms_send R w1 ?c] =>
      destruct (kms_send R w1 c) as [w2 [r|e]]
  end; cbn [world trace app]; [|reflexivity].
  destruct (Signature r) as [signature|]; [|reflexivity].
  now rewrite signature_replacements.
Qed.

(** A token is returned only when the lookup and the Sign call both
    answered and the response had a [Signature]. *)
Lemma sign_success (w : W) (token : string) :
  result (signJWTWithKMSKey R header payload) w = Returned (Some token) ->
  exists w1 jwk w2 r signature,
    jwks_retrieveJWK R w (JSON.lookup "kid" header) = (w1, Returned jwk)
    /\ kms_send R w1 (sign_command (kms_id jwk) header payload)
       = (w2, Returned r)
    /\ Signature r = Some signature
    /\ token = signing_input header payload ++ "." ++ base64url.encode signature
    /\ events (signJWTWithKMSKey R header payload) w
       = [JWKLookup (JSON.lookup "kid" header);
          Sent (sign_command (kms_id jwk) header payload)].
Proof.
  unfold result, events. rewrite sign_run.
  destruct (jwks_retrieveJWK R w (JSON.lookup "kid" header))
    as [w1 [jwk|e]] eqn:Hjwk; [|discriminate].
  cbv zeta.
  destruct (kms_send R w1 (sign_command (kms_id jwk) header payload))
    as [w2 [r|e]] eqn:Hsend; [|discriminate].
  cbn [fst snd trace].
  destruct (Signature r) as [signature|] eqn:Hsig; [|discriminate].
  intros H. injection H as <-.
  exists w1, jwk, w2, r, signature.
  repeat split; reflexivity || assumption.
Qed.

End Sign.

(** The three segments of a token assembled from URL-safe texts. *)
Lemma token_segments (seg1 seg2 seg3 : string) :
  Str.all base64url.is_url_char seg1 = true ->
  Str.all base64url.is_url_char seg2 = true ->
  Str.all base64url.is_url_char seg3 = true ->
  Str.split "." ((seg1 ++ "." ++ seg2) ++ "." ++ seg3) = [seg1; seg2; seg3]
  /\ Str.count "." ((seg1 ++ "." ++ seg2) ++ "." ++ seg3) = 2%nat.
Proof.
  intros H1 H2 H3.
  destruct (url_text_counts _ H1) as [D1 _].
  destruct (url_text_counts _ H2) as [D2 _].
  destruct (url_text_counts _ H3) as [D3 _].
  rewrite append_assoc. cbn [append].
  split.
  - rewrite (split_at "." seg1 _ D1).
    rewrite (split_at "." seg2 _ D2).
    now rewrite (split_absent "." seg3 D3).
  - rewrite count_append. cbn [Str.count]. rewrite count_append.
    cbn [Str.count]. rewrite D1, D2, D3. reflexivity.
Qed.






(** C8. Scenario B: with [retrieveJWK("abc123")] resolving to the record of
    KMS key ["kms-1"] and a client that signs with the bytes AA BB CC,
    [signJWTWithKMSKey({kid:"abc123"}, {sub:"user1"})] returns the encoded
    header and payload followed by [".qrvM"], the unpadded base64url
    encoding of those three bytes. *)
Theorem sign_scenario_B :
  forall (W : Type) (R : Runtime W) (w w1 : W),
    jwks_retrieveJWK R w (Some (JSON.Str "abc123"))
    = (w1, Returned (mkJWK "kms-1" true)) ->
    (forall input, exists w2 r,
        kms_send R w1 (SignCommand input) = (w2, Returned r)
        /\ Signature r = Some [xaa; xbb; xcc]) ->
    result (signJWTWithKMSKey R header_B payload_B) w
    = Returned (Some "eyJraWQiOiJhYmMxMjMifQ.eyJzdWIiOiJ1c2VyMSJ9.qrvM")
    /\ Str.split "." "eyJraWQiOiJhYmMxMjMifQ.eyJzdWIiOiJ1c2VyMSJ9.qrvM"
       = [base64url.encode_string (JSON.stringify (JSON.Object header_B));
          base64url.encode_string (JSON.stringify (JSON.Object payload_B));
          "qrvM"]
    /\ base64url.encode [xaa; xbb; xcc] = "qrvM".
Proof.
  intros W R w w1 Hjwk Hsign.
  split; [|split; vm_compute; reflexivity].
  unfold result. rewrite sign_run.
  change (JSON.lookup "kid" header_B) with (Some (JSON.Str "abc123")).
  rewrite Hjwk. cbv zeta.
  destruct (Hsign (mkSignInput "kms-1"
                     (Str.bytes (signing_input header_B payload_B))
                     "RAW" "RSASSA_PKCS1_V1_5_SHA_256"))
    as (w2 & r & Hsend & Hsig).
  unfold sign_command. cbn [kms_id]. rewrite Hsend. cbn [snd].
  rewrite Hsig. vm_compute. reflexivity.
Qed.

Lemma sign_scenario_B_witness :
  result (signJWTWithKMSKey world_B header_B payload_B) tt
  = Returned (Some "eyJraWQiOiJhYmMxMjMifQ.eyJzdWIiOiJ1c2VyMSJ9.qrvM").
Proof.
  apply (sign_scenario_B unit world_B tt tt).
  - reflexivity.
  - intros input. exists tt, (mkResponse None None (Some [xaa; xbb; xcc])).
    split; reflexivity.
Defined.



(* ================================================================== *)
(** * Properties: [getKMSKeyStatus] and [scheduleKeyDeletion] *)
(* ================================================================== *)

Lemma status_run {W : Type} (R : Runtime W) (keyId : string) (w : W) :
  run (getKMSKeyStatus R keyId) w =
  match kms_send R w (DescribeKeyCommand keyId) with
  | (w1, Thrown e) =>
      (mkState w1 [Sent (DescribeKeyCommand keyId);
                   ConsoleError "Error describing key:" e],
       Returned None)
  | (w1, Returned r) =>
      (mkState w1 [Sent (DescribeKeyCommand keyId)], Returned (enabled_of r))
  end.
Proof.
  unfold run, getKMSKeyStatus, try_catch, bind, send, console_error, emit, ret.
  cbn [world trace app].
  destruct (kms_send R w (DescribeKeyCommand keyId)) as [w1 [r|e]];
    reflexivity.
Qed.

Lemma schedule_run {W : Type} (R : Runtime W) (keyId : string) (w : W) :
  run (scheduleKeyDeletion R keyId) w =
  match kms_send R w (ScheduleKeyDeletionCommand keyId 7) with
  | (w1, Thrown e) =>
      (mkState w1 [Sent (ScheduleKeyDeletionCommand keyId 7);
                   ConsoleError "Error scheduling key deletion:" e],
       Returned tt)
  | (w1, Returned r) =>
      (mkState w1 [Sent (ScheduleKeyDeletionCommand keyId 7)], Returned tt)
  end.
Proof.
  unfold run, scheduleKeyDeletion, try_catch, bind, send, console_error,
    emit, ret.
  cbn [world trace app].
  destruct (kms_send R w (ScheduleKeyDeletionCommand keyId 7)) as [w1 [r|e]];
    reflexivity.
Qed.

(** C2 (as stated, refuted). With a client whose ScheduleKeyDeletion call
    fails and one whose call succeeds, [scheduleKeyDeletion] hands its
    caller the same value: the failure is not told apart from success. *)
Lemma schedule_failure_returns_as_success :
  kms_send (stub client_down no_store) tt
    (ScheduleKeyDeletionCommand "abc123" 7)
  = (tt, Thrown network_error)
  /\ kms_send (stub client_ok no_store) tt
       (ScheduleKeyDeletionCommand "abc123" 7)
     = (tt, Returned (mkResponse None None None))
  /\ result (scheduleKeyDeletion (stub client_down no_store) "abc123") tt
     = result (scheduleKeyDeletion (stub client_ok no_store) "abc123") tt.
Proof. repeat split; reflexivity. Qed.

(** C2 (amended). [scheduleKeyDeletion] never rejects: a failure of the
    remote ScheduleKeyDeletion call is caught and logged with
    [console.error] under the label ["Error scheduling key deletion:"], and
    the function then fulfils with [undefined], the value it also fulfils
    with after a successful call; the log entry is the only trace of the
    failure. *)
Theorem schedule_failure_is_logged :
  forall (W : Type) (R : Runtime W) (keyId : string) (w : W),
    result (scheduleKeyDeletion R keyId) w = Returned tt
    /\ (forall w1 e,
           kms_send R w (ScheduleKeyDeletionCommand keyId 7)
           = (w1, Thrown e) ->
           events (scheduleKeyDeletion R keyId) w
           = [Sent (ScheduleKeyDeletionCommand keyId 7);
              ConsoleError "Error scheduling key deletion:" e])
    /\ (forall w1 r,
           kms_send R w (ScheduleKeyDeletionCommand keyId 7)
           = (w1, Returned r) ->
           events (scheduleKeyDeletion R keyId) w
           = [Sent (ScheduleKeyDeletionCommand keyId 7)]).
Proof.
  intros W R keyId w. unfold result, events. rewrite schedule_run.
  repeat split.
  - destruct (kms_send R w (ScheduleKeyDeletionCommand keyId 7))
      as [w1 [r|e]]; reflexivity.
  - intros w1 e H. now rewrite H.
  - intros w1 r H. now rewrite H.
Qed.

Lemma schedule_failure_is_logged_witness :
  kms_send (stub client_down no_store) tt
    (ScheduleKeyDeletionCommand "abc123" 7)
  = (tt, Thrown network_error)
  /\ events (scheduleKeyDeletion (stub client_down no_store) "abc123") tt
     = [Sent (ScheduleKeyDeletionCommand "abc123" 7);
        ConsoleError "Error scheduling key deletion:" network_error].
Proof.
  split.
  - reflexivity.
  - apply (proj1 (proj2 (schedule_failure_is_logged unit
                           (stub client_down no_store) "abc123" tt))
             tt network_error).
    reflexivity.
Defined.

(** C6 (as stated, refuted). A call for a window of three days is not
    rejected: the window is dropped, and a ScheduleKeyDeletion request
    (for seven days) is issued as for any other call. *)
Lemma schedule_short_window_not_rejected :
  3 < 7
  /\ events (scheduleDeletion (stub client_ok no_store) "abc123" 3) tt
     = [Sent (ScheduleKeyDeletionCommand "abc123" 7)]
  /\ result (scheduleDeletion (stub client_ok no_store) "abc123" 3) tt
     = Returned tt.
Proof. repeat split. Qed.

(** C6 (amended). [scheduleKeyDeletion] takes no pending window: whatever
    window the caller has in mind, the function issues one
    ScheduleKeyDeletion request, first of all, and its
    [PendingWindowInDays] is the constant 7, the minimum; no request with a
    shorter window is ever sent. *)
Theorem schedule_window_is_seven :
  forall (W : Type) (R : Runtime W) (keyId : string) (pendingWindowDays : Z)
         (w : W),
    (exists log,
        events (scheduleDeletion R keyId pendingWindowDays) w
        = Sent (ScheduleKeyDeletionCommand keyId 7) :: log
        /\ forall c, ~ In (Sent c) log)
    /\ (forall k d,
           In (Sent (ScheduleKeyDeletionCommand k d))
              (events (scheduleDeletion R keyId pendingWindowDays) w) ->
           7 <= d).
Proof.
  intros W R keyId d0 w. unfold scheduleDeletion, events.
  rewrite schedule_run.
  destruct (kms_send R w (ScheduleKeyDeletionCommand keyId 7)) as [w1 [r|e]];
    cbn [fst trace].
  - split.
    + exists []. split; [reflexivity | intros c []].
    + intros k d [H|[]]. injection H as _ <-. lia.
  - split.
    + eexists. split; [reflexivity|].
      intros c [H|[]]. discriminate.
    + intros k d [H|[H|[]]]; [|discriminate]. injection H as _ <-. lia.
Qed.

(** C7. When the DescribeKey call throws, [getKMSKeyStatus] fulfils with
    [undefined], its result for a failure, after logging the error; the
    caller receives neither [true] nor [false]. *)
Theorem status_failure_is_not_boolean :
  forall (W : Type) (R : Runtime W) (keyId : string) (w w1 : W) (e : JSError),
    kms_send R w (DescribeKeyCommand keyId) = (w1, Thrown e) ->
    result (getKMSKeyStatus R keyId) w = Returned None
    /\ (forall b, result (getKMSKeyStatus R keyId) w <> Returned (Some b))
    /\ events (getKMSKeyStatus R keyId) w
       = [Sent (DescribeKeyCommand keyId);
          ConsoleError "Error describing key:" e].
Proof.
  intros W R keyId w w1 e H. unfold result, events.
  rewrite status_run, H. cbn [fst snd trace].
  repeat split. intros b. discriminate.
Qed.

Lemma status_failure_is_not_boolean_witness :
  kms_send (stub client_down no_store) tt (DescribeKeyCommand "abc123")
  = (tt, Thrown network_error)
  /\ result (getKMSKeyStatus (stub client_down no_store) "abc123") tt
     = Returned None.
Proof.
  split.
  - reflexivity.
  - apply (status_failure_is_not_boolean unit (stub client_down no_store)
             "abc123" tt tt network_error).
    reflexivity.
Defined.

(** C10. When the DescribeKey call succeeds with a response that has no
    [KeyMetadata], or whose [KeyMetadata] has no [Enabled],
    [getKMSKeyStatus] fulfils with [undefined]; this is the value it fulfils
    with in any world where the call fails. *)
Theorem status_absent_after_success :
  forall (W : Type) (R : Runtime W) (keyId : string) (w w1 : W) (r : Response),
    kms_send R w (DescribeKeyCommand keyId) = (w1, Returned r) ->
    (KeyMetadata r = None
     \/ exists km, KeyMetadata r = Some km /\ Enabled km = None) ->
    result (getKMSKeyStatus R keyId) w = Returned None
    /\ forall (W' : Type) (R' : Runtime W') (keyId' : string) (w' w1' : W')
              (e : JSError),
        kms_send R' w' (DescribeKeyCommand keyId') = (w1', Thrown e) ->
        result (getKMSKeyStatus R' keyId') w'
        = result (getKMSKeyStatus R keyId) w.
Proof.
  intros W R keyId w w1 r Hsend Habsent.
  assert (Hres : result (getKMSKeyStatus R keyId) w = Returned None).
  { unfold result. rewrite status_run, Hsend. cbn [snd]. unfold enabled_of.
    destruct Habsent as [-> | (km & -> & ->)]; reflexivity. }
  split; [exact Hres|].
  intros W' R' keyId' w' w1' e Hfail. rewrite Hres.
  unfold result. now rewrite status_run, Hfail.
Qed.

Lemma status_absent_after_success_witness :
  kms_send (stub client_no_metadata no_store) tt (DescribeKeyCommand "abc123")
  = (tt, Returned (mkResponse None None None))
  /\ result (getKMSKeyStatus (stub client_no_metadata no_store) "abc123") tt
     = Returned None
  /\ result (getKMSKeyStatus (stub client_down no_store) "abc123") tt
     = result (getKMSKeyStatus (stub client_no_metadata no_store) "abc123") tt.
Proof.
  assert (H := status_absent_after_success unit
                 (stub client_no_metadata no_store) "abc123" tt tt
                 (mkResponse None None None) eq_refl (or_introl eq_refl)).
  split; [reflexivity|]. split.
  - exact (proj1 H).
  - exact (proj2 H unit (stub client_down no_store) "abc123" tt tt
             network_error eq_refl).
Defined.

Lemma schedule_window_is_seven_witness :
  In (Sent (ScheduleKeyDeletionCommand "abc123" 7))
     (events (scheduleDeletion (stub client_ok no_store) "abc123" 3) tt)
  /\ 7 <= 7.
Proof.
  assert (H : In (Sent (ScheduleKeyDeletionCommand "abc123" 7))
                (events (scheduleDeletion (stub client_ok no_store)
                           "abc123" 3) tt)).
  { left. reflexivity. }
  split.
  - exact H.
  - exact (proj2 (schedule_window_is_seven unit (stub client_ok no_store)
                    "abc123" 3 tt) "abc123" 7 H).
Defined.

(* ================================================================== *)
(** * Properties: [createKMSKey] *)
(* ================================================================== *)

(** The reader of the armour finds the body of an armoured base64 text. *)
Lemma pem_body_pem (body : string) :
  Str.all is_std_char body = true -> pem_body (pem body) = Some body.
Proof.
  intros H.
  assert (Hnl : Str.count "010" body = 0%nat)
    by (apply (all_count_0 is_std_char); auto).
  unfold pem_body.
  change (pem body)
    with ("-----BEGIN PUBLIC KEY-----"
            ++ String "010" (body ++ String "010" "-----END PUBLIC KEY-----")).
  rewrite (split_at "010" "-----BEGIN PUBLIC KEY-----" _ eq_refl).
  rewrite (split_at "010" body _ Hnl).
  reflexivity.
Qed.

Section Create.

Context {W : Type} (R : Runtime W).
Variable alg : string.

(** Every run of [createKMSKey], by what the clock, the policy template and
    the client answer. *)
Lemma create_run (w : W) :
  run (createKMSKey R alg) w =
  let (wa, created) := clock R w in
  let (wb, today) := clock R wa in
  match kmsKeyPolicy (AWS_KMS_ROLE_ARN R)
          (dayjs_add_day R today (JWK_TIME_TO_LIVE R)) with
  | Thrown e =>
      (mkState wb [ConsoleError "Error creating key:" e], Returned None)
  | Returned policy =>
      let cmd := create_key_command alg created policy in
      match kms_send R wb cmd with
      | (w1, Thrown e) =>
          (mkState w1 [Sent cmd; ConsoleError "Error creating key:" e],
           Returned None)
      | (w1, Returned r) =>
          match key_id_of r with
          | Some keyId =>
              if truthy_string keyId then
                match kms_send R w1 (GetPublicKeyCommand keyId) with
                | (w2, Thrown e) =>
                    (mkState w2 [Sent cmd; Sent (GetPublicKeyCommand keyId);
                                 ConsoleError "Error creating key:" e],
                     Returned None)
                | (w2, Returned r') =>
                    (mkState w2 [Sent cmd; Sent (GetPublicKeyCommand keyId)],
                     Returned
                       match PublicKey r' with
                       | Some pk =>
                           Some (mkCreatedKey keyId (pem (Base64.encode pk)))
                       | None => None
                       end)
                end
              else (mkState w1 [Sent cmd], Returned None)
          | None => (mkState w1 [Sent cmd], Returned None)
          end
      end
  end.
Proof.
  unfold run, createKMSKey, try_catch, bind, send, now, lift, console_error,
    emit, ret, create_key_command, key_id_of, pem, toISOString.
  cbn [world trace app].
  destruct (clock R w) as [wa created]. cbn [world trace app].
  destruct (clock R wa) as [wb today]. cbn [world trace app].
  destruct (kmsKeyPolicy (AWS_KMS_ROLE_ARN R)
              (dayjs_add_day R today (JWK_TIME_TO_LIVE R))) as [policy|e];
    cbn [world trace app]; [|reflexivity].
  match goal with
  | |- context [kms_send R wb ?c] => destruct (kms_send R wb c) as [w1 [r|e]]
  end; cbn [world trace app]; [|reflexivity].
  destruct (KeyMetadata r) as [km|]; [|reflexivity].
  destruct (KeyId km) as [keyId|]; [|reflexivity].
  destruct (truthy_string keyId); [|reflexivity].
  cbn [world trace app].
  destruct (kms_send R w1 (GetPublicKeyCommand keyId)) as [w2 [r'|e]];
    cbn [world trace app]; [|reflexivity].
  destruct (PublicKey r'); reflexivity.
Qed.

End Create.

(** C5 (as stated, refuted). A GetPublicKey response whose [PublicKey] is
    an array of no bytes passes the test [if (PublicKey)], and a key record
    is returned whose PEM text has an empty body. *)
Lemma create_empty_key_material :
  kms_send (stub client_empty_public_key no_store) tt
    (GetPublicKeyCommand "abc123")
  = (tt, Returned (mkResponse None (Some []) None))
  /\ result (createKMSKey (stub client_empty_public_key no_store) "RSA_2048") tt
     = Returned (Some (mkCreatedKey "abc123" (pem EmptyString)))
  /\ pem_body (pem EmptyString) = Some EmptyString.
Proof. repeat split; vm_compute; reflexivity. Qed.

(** C5 (amended). [createKMSKey] never rejects, and fulfils either with
    [undefined] or with a record [{keyId, publicKey}] of the key id of the
    CreateKey response and the PEM text made of the line
    [-----BEGIN PUBLIC KEY-----], the padded base64 encoding of the
    [PublicKey] bytes of the GetPublicKey response (whole groups of four
    characters of the standard alphabet, decoding to those bytes, and not
    empty when the bytes are not) and the line [-----END PUBLIC KEY-----].
    If the CreateKey call throws or its response has no key id, or if the
    GetPublicKey call throws or its response has no [PublicKey] field, it
    fulfils with [undefined]: no record. *)
Theorem create_key_or_nothing :
  forall (W : Type) (R : Runtime W) (alg : string) (w : W),
    let res := result (createKMSKey R alg) w in
    (forall e, res <> Thrown e)
    /\ (forall key,
           res = Returned (Some key) ->
           exists pk,
             publicKey key = pem (Base64.encode pk)
             /\ pem_body (publicKey key) = Some (Base64.encode pk)
             /\ Str.all is_std_char (Base64.encode pk) = true
             /\ (String.length (Base64.encode pk) mod 4 = 0)%nat
             /\ Base64.decode (Base64.encode pk) = Some pk
             /\ (pk <> [] -> Base64.encode pk <> EmptyString)
             /\ keyId key <> EmptyString
             /\ exists input w1 w2 w3 r r',
                 events (createKMSKey R alg) w
                 = [Sent (CreateKeyCommand input);
                    Sent (GetPublicKeyCommand (keyId key))]
                 /\ kms_send R w1 (CreateKeyCommand input) = (w2, Returned r)
                 /\ key_id_of r = Some (keyId key)
                 /\ kms_send R w2 (GetPublicKeyCommand (keyId key))
                    = (w3, Returned r')
                 /\ PublicKey r' = Some pk)
    /\ (forall wa created wb today policy,
           clock R w = (wa, created) ->
           clock R wa = (wb, today) ->
           kmsKeyPolicy (AWS_KMS_ROLE_ARN R)
             (dayjs_add_day R today (JWK_TIME_TO_LIVE R)) = Returned policy ->
           let cmd := create_key_command alg created policy in
           (forall w1 e,
               kms_send R wb cmd = (w1, Thrown e) -> res = Returned None)
           /\ (forall w1 r,
                  kms_send R wb cmd = (w1, Returned r) ->
                  key_id_of r = None \/ key_id_of r = Some EmptyString ->
                  res = Returned None)
           /\ (forall w1 r id w2 e,
                  kms_send R wb cmd = (w1, Returned r) ->
                  key_id_of r = Some id ->
                  kms_send R w1 (GetPublicKeyCommand id) = (w2, Thrown e) ->
                  res = Returned None)
           /\ (forall w1 r id w2 r',
                  kms_send R wb cmd = (w1, Returned r) ->
                  key_id_of r = Some id ->
                  kms_send R w1 (GetPublicKeyCommand id) = (w2, Returned r') ->
                  PublicKey r' = None ->
                  res = Returned None)).
Proof.
  intros W R alg w res.
  assert (Hrun := create_run R alg w).
  unfold res, result, events.
  split; [|split].
  - intros e. rewrite Hrun.
    destruct (clock R w) as [wa created].
    destruct (clock R wa) as [wb today].
    destruct (kmsKeyPolicy _ _) as [policy|e0]; [|discriminate].
    cbv zeta.
    destruct (kms_send R wb _) as [w1 [r|e1]]; [|discriminate].
    destruct (key_id_of r) as [keyId|]; [|discriminate].
    destruct (truthy_string keyId); [|discriminate].
    destruct (kms_send R w1 _) as [w2 [r'|e2]]; discriminate.
  - intros key. rewrite Hrun.
    destruct (clock R w) as [wa created].
    destruct (clock R wa) as [wb today].
    destruct (kmsKeyPolicy _ _) as [policy|e0]; [|discriminate].
    cbv zeta.
    destruct (kms_send R wb _) as [w1 [r|e1]] eqn:Hcreate; [|discriminate].
    destruct (key_id_of r) as [id|] eqn:Hid; [|discriminate].
    destruct (truthy_string id) eqn:Htruthy; [|discriminate].
    destruct (kms_send R w1 _) as [w2 [r'|e2]] eqn:Hget; [|discriminate].
    cbn [fst snd trace].
    destruct (PublicKey r') as [pk|] eqn:Hpk; [|discriminate].
    intros H. injection H as <-. cbn [keyId publicKey].
    destruct (base64_shape pk) as [Hstd Hlen].
    exists pk. repeat split.
    + now apply pem_body_pem.
    + exact Hstd.
    + exact Hlen.
    + apply base64_roundtrip.
    + intros Hne Hempty. apply Hne. now apply base64_encode_empty.
    + intros ->. discriminate.
    + unfold create_key_command in Hcreate.
      eexists _, wb, w1, w2, r, r'. repeat split; eassumption.
  - intros wa created wb today policy Hc1 Hc2 Hpol.
    rewrite Hrun, Hc1, Hc2, Hpol. cbv zeta.
    repeat split.
    + intros w1 e H. now rewrite H.
    + intros w1 r H [Hid|Hid]; rewrite H, Hid; reflexivity.
    + intros w1 r id w2 e H Hid Hget. rewrite H, Hid.
      destruct (truthy_string id); [|reflexivity]. now rewrite Hget.
    + intros w1 r id w2 r' H Hid Hget Hpk. rewrite H, Hid.
      destruct (truthy_string id); [|reflexivity]. rewrite Hget.
      cbn [snd]. now rewrite Hpk.
Qed.

Lemma create_key_or_nothing_witness :
  kms_send (stub client_no_public_key no_store) tt
    (GetPublicKeyCommand "abc123") = (tt, Thrown network_error)
  /\ result (createKMSKey (stub client_no_public_key no_store) "RSA_2048") tt
     = Returned None.
Proof.
  split.
  - reflexivity.
  - refine (proj1 (proj2 (proj2
        (proj2 (proj2 (create_key_or_nothing unit
                         (stub client_no_public_key no_store) "RSA_2048" tt))
           tt 1700000000000 tt 1700000000000
           (match kmsKeyPolicy (Some "arn:aws:iam::123456789012:role/kms")
                    (Some (1700000000000 + 90 * 86400000)) with
            | Returned p => p
            | Thrown _ => EmptyString
            end)
           eq_refl eq_refl _)))
        tt (mkResponse (Some (mkKeyMetadata (Some "abc123") (Some true)))
              None None)
        "abc123" tt network_error _ eq_refl eq_refl);
      vm_compute; reflexivity.
Defined.

(* ================================================================== *)
(** * Properties: [kmsKeyPolicy] *)
(* ================================================================== *)

Lemma escape_plain (s : string) :
  Str.all json_plain s = true -> JSON.escape s = s.
Proof.
  induction s as [|c s IH]; simpl; [reflexivity|].
  intros Hall. apply andb_true_iff in Hall as [Hc Hs]. rewrite (IH Hs).
  unfold json_plain in Hc. unfold JSON.escape_char.
  apply andb_true_iff in Hc as [Hc Hbs].
  apply andb_true_iff in Hc as [Hctl Hdq].
  apply negb_true_iff in Hbs, Hdq, Hctl.
  assert (E : forall k, (k < 32)%N -> (N_of_ascii c =? k)%N = false).
  { intros k Hk. apply N.eqb_neq. apply N.ltb_ge in Hctl. lia. }
  rewrite !E by lia.
  now rewrite Hdq, Hbs, Hctl.
Qed.

Lemma padded_plain (n : Z) (w : nat) :
  Str.all json_plain (Dec.ToZeroPaddedDecimalString n w) = true.
Proof. apply fixed_all. exact digit_plain. Qed.

(** The instant [toISOString] writes needs no escaping in a JSON text. *)
Lemma iso_text_plain (t : Z) : Str.all json_plain (Date.iso_text t) = true.
Proof.
  unfold Date.iso_text, Date.pad.
  repeat (rewrite all_append; rewrite ?padded_plain; cbn [andb]).
  destruct ((0 <=? Date.YearFromTime t) && (Date.YearFromTime t <=? 9999)).
  - now rewrite padded_plain.
  - rewrite all_append, padded_plain.
    destruct (0 <=? Date.YearFromTime t); reflexivity.
Qed.

Lemma append_cancel_l (a s1 s2 : string) : a ++ s1 = a ++ s2 -> s1 = s2.
Proof.
  induction a as [|c a IH]; simpl; intros H; [exact H|].
  injection H as H. now apply IH.
Qed.

Lemma append_cancel_r (s1 s2 c : string) : s1 ++ c = s2 ++ c -> s1 = s2.
Proof.
  revert s2. induction s1 as [|x s1 IH]; intros [|y s2] H; simpl in H.
  - reflexivity.
  - apply (f_equal String.length) in H. simpl in H.
    rewrite length_append in H. lia.
  - apply (f_equal String.length) in H. simpl in H.
    rewrite length_append in H. lia.
  - injection H as -> H. f_equal. now apply IH.
Qed.

(** The template as a document: its text is the two-space serialization
    of the policy of its principal, the fixed actions and its instant. *)
Lemma policy_template_json (principal instant : string) :
  Str.all json_plain principal = true ->
  Str.all json_plain instant = true ->
  policy_template principal instant
  = JSON.stringify2
      (policy_json (mkPolicy principal fixed_actions instant)).
Proof.
  intros Hp Hi.
  apply escape_plain in Hp. apply escape_plain in Hi.
  unfold JSON.stringify2, policy_json, policy_template.
  cbn. rewrite Hp, Hi.
  repeat (rewrite !append_assoc; cbn).
  reflexivity.
Qed.

Lemma policy_template_injective (principal i1 i2 : string) :
  policy_template principal i1 = policy_template principal i2 -> i1 = i2.
Proof.
  unfold policy_template. intros H.
  apply append_cancel_l in H. apply append_cancel_l in H.
  apply append_cancel_l in H. now apply append_cancel_r in H.
Qed.

Lemma Returned_injective {A : Type} (a b : A) :
  @Returned A a = Returned b -> a = b.
Proof. intros H. now injection H. Qed.

(** C3. For every valid instant [expire_at], [kmsKeyPolicy(expire_at)] is
    the template around the principal [process.env.AWS_KMS_ROLE_ARN] and
    an instant. When the principal is made of characters JSON writes as
    they are, that text is a JSON text that reads as the policy document
    with one statement, which allows the principal exactly the eight fixed
    actions under the condition [DateLessThan] [aws:CurrentTime] the
    instant. The instant is the text [toISOString] gives for [expire_at],
    which the reader of the format [YYYY-MM-DDTHH:mm:ss.sssZ] takes back to
    [expire_at] to the millisecond. The same instant gives the same
    document, and only the same instant does. *)
Theorem kms_policy_document :
  forall (arn : option string) (expire_at : Z),
    Date.valid expire_at ->
    let instant := Date.iso_text expire_at in
    let doc := mkPolicy (string_of_env arn) fixed_actions instant in
    exists text,
      kmsKeyPolicy arn (Some expire_at) = Returned text
      /\ text = policy_template (string_of_env arn) instant
      /\ (Str.all json_plain (string_of_env arn) = true ->
          text = JSON.stringify2 (policy_json doc)
          /\ Reader.parse text = Some (policy_json doc))
      /\ toISOString (Some expire_at) = Returned instant
      /\ Date.parse_iso instant = Some expire_at
      /\ (forall t,
             Date.valid t ->
             kmsKeyPolicy arn (Some t) = kmsKeyPolicy arn (Some expire_at)
             <-> t = expire_at).
Proof.
  intros arn t Hv instant doc.
  exists (policy_template (string_of_env arn) instant).
  unfold kmsKeyPolicy. cbn [toISOString]. fold instant.
  split; [reflexivity|]. split; [reflexivity|]. split.
  { intros Hp.
    assert (Htext : policy_template (string_of_env arn) instant
                    = JSON.stringify2 (policy_json doc)).
    { apply policy_template_json; [exact Hp | apply iso_text_plain]. }
    split; [exact Htext|]. rewrite Htext. apply parse_stringify2. }
  split; [reflexivity|].
  split; [now apply parse_iso_text|].
  intros t' Hv'. split.
  - intros E. apply Returned_injective in E.
    apply policy_template_injective in E.
    now apply iso_text_injective.
  - intros ->. reflexivity.
Qed.

Lemma kms_policy_document_witness :
  Date.valid 1707776000000
  /\ Date.iso_text 1707776000000 = "2024-02-12T22:13:20.000Z"
  /\ exists text,
      kmsKeyPolicy (Some "arn:aws:iam::123456789012:role/kms")
        (Some 1707776000000) = Returned text
      /\ Reader.parse text
         = Some (policy_json
                   (mkPolicy "arn:aws:iam::123456789012:role/kms"
                      fixed_actions "2024-02-12T22:13:20.000Z")).
Proof.
  assert (Hv : Date.valid 1707776000000)
    by (unfold Date.valid, Date.maxTime; lia).
  assert (Hiso : Date.iso_text 1707776000000 = "2024-02-12T22:13:20.000Z")
    by (vm_compute; reflexivity).
  split; [exact Hv|]. split; [exact Hiso|].
  destruct (kms_policy_document (Some "arn:aws:iam::123456789012:role/kms")
              1707776000000 Hv) as (text & H1 & _ & H3 & _).
  exists text. split; [exact H1|].
  destruct (H3 eq_refl) as [_ H4].
  rewrite Hiso in H4. exact H4.
Defined.

(* ================================================================== *)
(** * Examples *)
(* ================================================================== *)

(** The test vectors of RFC 4648, section 10. *)
Example base64_vectors :
  List.map (fun s => Base64.encode (Str.bytes s))
    [EmptyString; "f"; "fo"; "foo"; "foob"; "fooba"; "foobar"]
  = [EmptyString; "Zg=="; "Zm8="; "Zm9v"; "Zm9vYg=="; "Zm9vYmE="; "Zm9vYmFy"].
Proof. reflexivity. Qed.

Example base64url_vectors :
  base64url.encode [xfb; xff; xfe] = "-__-"
  /\ base64url.encode (Str.bytes "fo") = "Zm8"
  /\ base64url.decode "-__-" = Some [xfb; xff; xfe].
Proof. repeat split; reflexivity. Qed.

Example stringify_header :
  Reader.parse (JSON.stringify (JSON.Object header_B))
  = Some (JSON.Object header_B)
  /\ base64url.encode_string (JSON.stringify (JSON.Object header_B))
     = "eyJraWQiOiJhYmMxMjMifQ".
Proof. split; reflexivity. Qed.

Example stringify_nested :
  Reader.parse
    (JSON.stringify
       (JSON.Object
          [("a", JSON.Array [JSON.Null; JSON.Bool true; JSON.Number (-12)]);
           ("b", JSON.Str (String "009" "tab"))]))
  = Some
      (JSON.Object
         [("a", JSON.Array [JSON.Null; JSON.Bool true; JSON.Number (-12)]);
          ("b", JSON.Str (String "009" "tab"))]).
Proof. reflexivity. Qed.

Example iso_texts :
  List.map Date.iso_text
    [0; -1; 951782400000; 1709164799999; 253402300800000;
     -62167219200001; 8640000000000000; -8640000000000000]
  = ["1970-01-01T00:00:00.000Z"; "1969-12-31T23:59:59.999Z";
     "2000-02-29T00:00:00.000Z"; "2024-02-28T23:59:59.999Z";
     "+010000-01-01T00:00:00.000Z"; "-000001-12-31T23:59:59.999Z";
     "+275760-09-13T00:00:00.000Z"; "-271821-04-20T00:00:00.000Z"].
Proof. vm_compute. reflexivity. Qed.

(** Scenario A: every remote call succeeds. *)
Example create_scenario_A :
  result (createKMSKey (stub client_ok no_store) "RSA_2048") tt
  = Returned (Some (mkCreatedKey "abc123" (pem "MIIBIg==")))
  /\ pem_body (pem "MIIBIg==") = Some "MIIBIg==".
Proof. split; vm_compute; reflexivity. Qed.

(** Scenario D: the public key cannot be fetched after the key was
    created. *)
Example create_scenario_D :
  result (createKMSKey (stub client_no_public_key no_store) "RSA_2048") tt
  = Returned None.
Proof. vm_compute. reflexivity. Qed.

Example status_enabled :
  result (getKMSKeyStatus (stub client_ok no_store) "abc123") tt
  = Returned (Some true).
Proof. reflexivity. Qed.

(* ================================================================== *)
(** * Properties: [getKMSClient] *)
(* ================================================================== *)

Lemma getKMSClient_run {W : Type} (A : AuthRuntime W) (w : W) :
  eff_run (getKMSClient A) w =
  let stsClient := STSClient (env_AWS_REGION_NAME A) in
  let command :=
    mkAssumeRoleInput (env_AWS_KMS_ROLE_ARN A) "DevPortalKmsSession" 3600 in
  match sts_send A w stsClient command with
  | (w', Returned response) =>
      ((w', [AssumeRoleSent stsClient command]),
       Returned
         match Credentials response with
         | Some c =>
             Some (KMSClient (env_AWS_REGION_NAME A)
                     (mkRoleCredentials (AccessKeyId c) (SecretAccessKey c)
                        (SessionToken c)))
         | None => None
         end)
  | (w', Thrown e) =>
      ((w', [AssumeRoleSent stsClient command;
             AuthConsoleError "Error assuming role:" e]),
       Returned None)
  end.
Proof.
  unfold eff_run, getKMSClient, eff_try, eff_bind, eff_call, eff_emit,
    eff_ret.
  cbn [fst snd app].
  destruct (sts_send A w _ _) as [w' [response|e]]; cbn [fst snd app].
  - destruct (Credentials response); reflexivity.
  - reflexivity.
Qed.

(** X1. [getKMSClient] fulfils with a KMS client exactly when the
    AssumeRole call answers with [Credentials]; the client is then
    configured with [process.env.AWS_REGION_NAME] and the three fields of
    those credentials as they are, absent ones included. *)
Theorem getKMSClient_client :
  forall (W : Type) (A : AuthRuntime W) (w : W) (client : Client),
    eff_result (getKMSClient A) w = Returned (Some client)
    <-> exists w' response c,
        sts_send A w (STSClient (env_AWS_REGION_NAME A))
          (mkAssumeRoleInput (env_AWS_KMS_ROLE_ARN A)
             "DevPortalKmsSession" 3600)
        = (w', Returned response)
        /\ Credentials response = Some c
        /\ client = KMSClient (env_AWS_REGION_NAME A)
                      (mkRoleCredentials (AccessKeyId c) (SecretAccessKey c)
                         (SessionToken c)).
Proof.
  intros W A w client. unfold eff_result. rewrite getKMSClient_run.
  cbv zeta. split.
  - destruct (sts_send A w _ _) as [w' [response|e]] eqn:Hsend;
      cbn [snd]; [|discriminate].
    destruct (Credentials response) as [c|] eqn:Hc; [|discriminate].
    intros H. injection H as <-.
    exists w', response, c. repeat split; assumption.
  - intros (w' & response & c & Hsend & Hc & ->).
    rewrite Hsend. cbn [snd]. now rewrite Hc.
Qed.

Lemma getKMSClient_client_witness :
  eff_result (getKMSClient (auth_stub sts_ok)) tt
  = Returned
      (Some (KMSClient (Some "eu-west-1")
               (mkRoleCredentials (Some "AKIA") (Some "secret")
                  (Some "token")))).
Proof.
  apply (proj2 (getKMSClient_client unit (auth_stub sts_ok) tt _)).
  exists tt,
    (mkAssumeRoleResponse
       (Some (mkCredentials (Some "AKIA") (Some "secret") (Some "token")))),
    (mkCredentials (Some "AKIA") (Some "secret") (Some "token")).
  repeat split.
Defined.

(** X2. [getKMSClient] never rejects. It sends one AssumeRole request, for
    the role [process.env.AWS_KMS_ROLE_ARN], the session name
    ["DevPortalKmsSession"] and 3600 seconds, through an STS client of the
    configured region. When the request throws, the error is logged under
    ["Error assuming role:"] and the result is [undefined]; when the
    response has no [Credentials], the result is [undefined] as well and
    nothing is logged. *)
Theorem getKMSClient_effects :
  forall (W : Type) (A : AuthRuntime W) (w : W),
    let request :=
      AssumeRoleSent (STSClient (env_AWS_REGION_NAME A))
        (mkAssumeRoleInput (env_AWS_KMS_ROLE_ARN A)
           "DevPortalKmsSession" 3600) in
    (forall e, eff_result (getKMSClient A) w <> Thrown e)
    /\ (forall w' e,
           sts_send A w (STSClient (env_AWS_REGION_NAME A))
             (mkAssumeRoleInput (env_AWS_KMS_ROLE_ARN A)
                "DevPortalKmsSession" 3600) = (w', Thrown e) ->
           eff_result (getKMSClient A) w = Returned None
           /\ eff_events (getKMSClient A) w
              = [request; AuthConsoleError "Error assuming role:" e])
    /\ (forall w' response,
           sts_send A w (STSClient (env_AWS_REGION_NAME A))
             (mkAssumeRoleInput (env_AWS_KMS_ROLE_ARN A)
                "DevPortalKmsSession" 3600) = (w', Returned response) ->
           eff_events (getKMSClient A) w = [request]
           /\ (Credentials response = None ->
               eff_result (getKMSClient A) w = Returned None)).
Proof.
  intros W A w request. unfold eff_result, eff_events.
  rewrite getKMSClient_run. cbv zeta.
  split; [|split].
  - intros e. destruct (sts_send A w _ _) as [w' [response|e']]; discriminate.
  - intros w' e H. rewrite H. split; reflexivity.
  - intros w' response H. rewrite H. split; [reflexivity|].
    intros Hc. cbn [snd]. now rewrite Hc.
Qed.

Lemma getKMSClient_effects_witness :
  sts_send (auth_stub sts_down) tt (STSClient (Some "eu-west-1"))
    (mkAssumeRoleInput (Some "arn:aws:iam::123456789012:role/kms")
       "DevPortalKmsSession" 3600) = (tt, Thrown network_error)
  /\ eff_result (getKMSClient (auth_stub sts_down)) tt = Returned None.
Proof.
  split.
  - reflexivity.
  - exact (proj1 (proj1 (proj2 (getKMSClient_effects unit
                                  (auth_stub sts_down) tt))
                    tt network_error eq_refl)).
Defined.

(* ================================================================== *)
(** * Properties: the confirm handler of [RemoveMemberDialog] *)
(* ================================================================== *)

Lemma handleConfirm_run {W : Type}
  (removeTeamMember : W -> string -> W * Outcome unit)
  (memberForRemove : option RemoveMemberDialog.TeamMemberModel) (w : W) :
  eff_run (RemoveMemberDialog.handleConfirm removeTeamMember memberForRemove) w
  = match memberForRemove with
    | None => ((w, []), Returned tt)
    | Some member =>
        match removeTeamMember w (RemoveMemberDialog.id member) with
        | (w', Returned _) =>
            ((w', [RemoveMemberDialog.RemoveTeamMember
                     (RemoveMemberDialog.id member);
                   RemoveMemberDialog.OnClose]),
             Returned tt)
        | (w', Thrown e) =>
            ((w', [RemoveMemberDialog.RemoveTeamMember
                     (RemoveMemberDialog.id member)]),
             Thrown e)
        end
    end.
Proof.
  destruct memberForRemove as [member|]; [|reflexivity].
  unfold eff_run, RemoveMemberDialog.handleConfirm, eff_bind, eff_call,
    eff_emit.
  cbn [fst snd app].
  destruct (removeTeamMember w (RemoveMemberDialog.id member))
    as [w' [[]|e]]; reflexivity.
Qed.



(* ================================================================== *)
(** * Properties: more on [getKMSKeyStatus] *)
(* ================================================================== *)

(** X4. A boolean returned by [getKMSKeyStatus] is the [Enabled] field of
    the answer to the one DescribeKey request the function sent for
    [keyId]: the function returns [true] or [false] exactly when that
    request succeeded with that value, never otherwise. *)
Theorem status_boolean_is_live :
  forall (W : Type) (R : Runtime W) (keyId : string) (w : W) (b : bool),
    commands (events (getKMSKeyStatus R keyId) w) = [DescribeKeyCommand keyId]
    /\ (result (getKMSKeyStatus R keyId) w = Returned (Some b)
        <-> exists w1 r km,
            kms_send R w (DescribeKeyCommand keyId) = (w1, Returned r)
            /\ KeyMetadata r = Some km
            /\ Enabled km = Some b).
Proof.
  intros W R keyId w b. unfold result, events. rewrite status_run.
  split.
  - destruct (kms_send R w (DescribeKeyCommand keyId)) as [w1 [r|e]];
      reflexivity.
  - split.
    + destruct (kms_send R w (DescribeKeyCommand keyId)) as [w1 [r|e]]
        eqn:Hsend; cbn [snd]; [|discriminate].
      unfold enabled_of. destruct (KeyMetadata r) as [km|] eqn:Hkm;
        [|discriminate].
      intros H. injection H as H. exists w1, r, km. auto.
    + intros (w1 & r & km & Hsend & Hkm & Hen).
      rewrite Hsend. cbn [snd]. unfold enabled_of. now rewrite Hkm, Hen.
Qed.

Lemma status_boolean_is_live_witness :
  result (getKMSKeyStatus (stub client_ok no_store) "abc123") tt
  = Returned (Some true).
Proof.
  apply (proj2 (proj2 (status_boolean_is_live unit (stub client_ok no_store)
                         "abc123" tt true))).
  exists tt,
    (mkResponse (Some (mkKeyMetadata (Some "abc123") (Some true))) None None),
    (mkKeyMetadata (Some "abc123") (Some true)).
  repeat split.
Defined.

(* ================================================================== *)
(** * Properties: lengths of encodings *)
(* ================================================================== *)

Lemma enc_with_exact_length (tr : ascii -> ascii) (l : list byte) :
  String.length (enc_with tr l) = ((4 * List.length l + 2) / 3)%nat.
Proof.
  induction l as [|x|x y|x y z l IH] using list_ind3; try reflexivity.
  cbn [enc_with String.length List.length]. rewrite IH.
  replace (4 * S (S (S (List.length l))) + 2)%nat
    with ((4 * List.length l + 2) + 4 * 3)%nat by lia.
  rewrite Nat.div_add by lia. lia.
Qed.

Lemma base64_exact_length (l : list byte) :
  String.length (Base64.encode l) = (4 * ((List.length l + 2) / 3))%nat.
Proof.
  induction l as [|x|x y|x y z l IH] using list_ind3; try reflexivity.
  cbn [Base64.encode String.length List.length]. rewrite IH.
  replace (S (S (S (List.length l))) + 2)%nat
    with ((List.length l + 2) + 1 * 3)%nat by lia.
  rewrite Nat.div_add by lia. lia.
Qed.

(* ================================================================== *)
(** * Properties: more on [signJWTWithKMSKey] *)
(* ================================================================== *)

(** X5. The signature segment [signJWTWithKMSKey] builds from the
    signature bytes is jose's encoding of them: the three [replace] calls
    that follow [base64url.encode] change nothing. The segment has
    [(4n + 2) / 3] characters for [n] bytes, and decodes back to the
    bytes. *)
Theorem encoded_signature :
  forall (signature : list byte),
    let encodedSignature :=
      Str.replace_all "="%char EmptyString
        (Str.replace_all "/"%char "_"
           (Str.replace_all "+"%char "-" (base64url.encode signature))) in
    encodedSignature = base64url.encode signature
    /\ String.length encodedSignature
       = ((4 * List.length signature + 2) / 3)%nat
    /\ base64url.decode encodedSignature = Some signature.
Proof.
  intros signature encodedSignature. unfold encodedSignature.
  rewrite signature_replacements. split; [reflexivity|]. split.
  - rewrite url_encode_enc. apply enc_with_exact_length.
  - apply base64url_roundtrip.
Qed.

Lemma dot_split_unique (a b a' b' : string) :
  Str.count "." a = 0%nat -> Str.count "." a' = 0%nat ->
  a ++ "." ++ b = a' ++ "." ++ b' -> a = a' /\ b = b'.
Proof.
  intros Ha Ha' E.
  assert (S : Str.split "." (a ++ "." ++ b) = Str.split "." (a' ++ "." ++ b'))
    by now rewrite E.
  change (a ++ "." ++ b) with (a ++ String "." b) in S.
  change (a' ++ "." ++ b') with (a' ++ String "." b') in S.
  rewrite (split_at "." a b Ha), (split_at "." a' b' Ha') in S.
  injection S as -> _. split; [reflexivity|].
  apply append_cancel_l in E. now injection E.
Qed.

Lemma base64url_encode_injective (l l' : list byte) :
  base64url.encode l = base64url.encode l' -> l = l'.
Proof.
  intros E. pose proof (base64url_roundtrip l) as H.
  rewrite E, base64url_roundtrip in H. congruence.
Qed.

Lemma stringify_injective (v v' : JSON.value) :
  JSON.stringify v = JSON.stringify v' -> v = v'.
Proof.
  intros E. pose proof (parse_stringify v) as H.
  rewrite E, parse_stringify in H. congruence.
Qed.

Lemma encode_string_injective (v v' : JSON.value) :
  base64url.encode_string (JSON.stringify v)
  = base64url.encode_string (JSON.stringify v') -> v = v'.
Proof.
  unfold base64url.encode_string, Str.bytes. intros E.
  apply base64url_encode_injective in E.
  apply stringify_injective.
  rewrite <- (string_of_list_byte_of_string (JSON.stringify v)).
  rewrite <- (string_of_list_byte_of_string (JSON.stringify v')).
  now rewrite E.
Qed.





(** X8. [signJWTWithKMSKey] logs at most one error, under
    ["Error signing JWT:"], and a run that logged one returned no token.
    When the Sign call answers without a [Signature], the function returns
    [undefined] and logs nothing. *)
Theorem sign_logging :
  forall (W : Type) (R : Runtime W)
         (header payload : list (string * JSON.value)) (w : W),
    let evs := events (signJWTWithKMSKey R header payload) w in
    let res := result (signJWTWithKMSKey R header payload) w in
    (logged evs = []
     \/ exists e, logged evs = [("Error signing JWT:", e)]
                  /\ res = Returned None)
    /\ (forall w1 jwk w2 r,
           jwks_retrieveJWK R w (JSON.lookup "kid" header)
           = (w1, Returned jwk) ->
           kms_send R w1 (sign_command (kms_id jwk) header payload)
           = (w2, Returned r) ->
           Signature r = None ->
           res = Returned None /\ logged evs = []).
Proof.
  intros W R header payload w evs res. unfold evs, res, events, result.
  rewrite sign_run.
  split.
  - destruct (jwks_retrieveJWK R w (JSON.lookup "kid" header))
      as [w1 [jwk|e]].
    + cbv zeta.
      destruct (kms_send R w1 (sign_command (kms_id jwk) header payload))
        as [w2 [r|e]]; cbn [fst snd trace].
      * left. reflexivity.
      * right. exists e. split; reflexivity.
    + right. exists e. split; reflexivity.
  - intros w1 jwk w2 r H1 H2 H3. rewrite H1. cbv zeta. rewrite H2.
    cbn [fst snd trace]. rewrite H3. split; reflexivity.
Qed.

Lemma sign_logging_witness :
  Signature (mkResponse None None None) = None
  /\ result (signJWTWithKMSKey (stub client_no_signature store_B)
               header_B payload_B) tt = Returned None
  /\ logged (events (signJWTWithKMSKey (stub client_no_signature store_B)
                       header_B payload_B) tt) = [].
Proof.
  split; [reflexivity|].
  exact (proj2 (sign_logging unit (stub client_no_signature store_B)
                  header_B payload_B tt)
           tt (mkJWK "kms-1" true) tt (mkResponse None None None)
           eq_refl eq_refl eq_refl).
Defined.

(** X9. [signJWTWithKMSKey] does not require the header to have a [kid]:
    for a header without one the store is asked for [undefined], and when
    the store and KMS answer, a token is returned all the same. *)
Theorem sign_without_kid :
  forall (W : Type) (R : Runtime W)
         (header payload : list (string * JSON.value)) (w w1 w2 : W)
         (jwk : JWKRecord) (r : Response) (signature : list byte),
    JSON.lookup "kid" header = None ->
    jwks_retrieveJWK R w None = (w1, Returned jwk) ->
    kms_send R w1 (sign_command (kms_id jwk) header payload)
    = (w2, Returned r) ->
    Signature r = Some signature ->
    result (signJWTWithKMSKey R header payload) w
    = Returned (Some (signing_input header payload ++ "."
                        ++ base64url.encode signature))
    /\ events (signJWTWithKMSKey R header payload) w
       = [JWKLookup None; Sent (sign_command (kms_id jwk) header payload)].
Proof.
  intros W R header payload w w1 w2 jwk r signature Hkid Hjwk Hsend Hsig.
  unfold result, events. rewrite sign_run, Hkid, Hjwk. cbv zeta.
  rewrite Hsend. cbn [fst snd trace]. now rewrite Hsig.
Qed.

Lemma sign_without_kid_witness :
  JSON.lookup "kid" payload_B = None
  /\ result (signJWTWithKMSKey (stub client_ok store_any)
               payload_B payload_B) tt
     = Returned (Some (signing_input payload_B payload_B ++ "."
                         ++ base64url.encode [xaa; xbb; xcc])).
Proof.
  split.
  - reflexivity.
  - exact (proj1 (sign_without_kid unit (stub client_ok store_any)
                    payload_B payload_B tt tt tt (mkJWK "kms-1" true)
                    (mkResponse None None (Some [xaa; xbb; xcc]))
                    [xaa; xbb; xcc] eq_refl eq_refl eq_refl eq_refl)).
Defined.

(* ================================================================== *)
(** * Properties: more on [createKMSKey] *)
(* ================================================================== *)

(** X10. [createKMSKey] sends nothing, or one CreateKey command, or a
    CreateKey command followed by one GetPublicKey command; never any
    other command. The CreateKey command asks for a key of the given
    specification, for signing and verifying, tagged [app] =
    [developer-portal]; the GetPublicKey command is sent only once
    CreateKey answered with a key id that is not empty, and asks for that
    key. *)
Theorem create_command_order :
  forall (W : Type) (R : Runtime W) (alg : string) (w : W),
    let sent := commands (events (createKMSKey R alg) w) in
    sent = []
    \/ exists input,
        KeySpec input = alg
        /\ KeyUsage input = "SIGN_VERIFY"
        /\ Tags input = [mkTag "app" "developer-portal"]
        /\ (sent = [CreateKeyCommand input]
            \/ exists key_id w1 w2 r,
                sent = [CreateKeyCommand input; GetPublicKeyCommand key_id]
                /\ kms_send R w1 (CreateKeyCommand input) = (w2, Returned r)
                /\ key_id_of r = Some key_id
                /\ key_id <> EmptyString).
Proof.
  intros W R alg w sent. unfold sent, events. rewrite create_run.
  destruct (clock R w) as [wa created].
  destruct (clock R wa) as [wb today].
  destruct (kmsKeyPolicy _ _) as [policy|e0]; [|left; reflexivity].
  cbv zeta. right. unfold create_key_command.
  exists (mkCreateKeyInput alg "SIGN_VERIFY"
            ("Developer Portal JWK for Sign in with Worldcoin. "
               ++ "Created: " ++ Date.iso_text created)
            policy [mkTag "app" "developer-portal"]).
  split; [reflexivity|]. split; [reflexivity|].
  split; [reflexivity|].
  destruct (kms_send R wb _) as [w1 [r|e1]] eqn:Hcreate;
    [|left; reflexivity].
  destruct (key_id_of r) as [key_id|] eqn:Hid; [|left; reflexivity].
  destruct (truthy_string key_id) eqn:Htruthy; [|left; reflexivity].
  right. exists key_id, wb, w1, r.
  assert (Hne : key_id <> EmptyString) by (intros ->; discriminate).
  destruct (kms_send R w1 (GetPublicKeyCommand key_id)) as [w2 [r'|e2]];
    cbn [fst trace commands]; repeat split; assumption.
Qed.

(** X11. When [dayjs().add(JWK_TIME_TO_LIVE, "day")] is a valid instant,
    the first thing [createKMSKey] does to the outside is to send a
    CreateKey command whose description ends in the ISO text of the first
    clock reading and whose policy (for a principal JSON writes as it is)
    reads as the policy document of the fixed actions with a condition
    instant that is that expiry, to the millisecond. *)
Theorem create_policy_expiry :
  forall (W : Type) (R : Runtime W) (alg : string) (w wa wb : W)
         (created today expiry : Z),
    clock R w = (wa, created) ->
    clock R wa = (wb, today) ->
    dayjs_add_day R today (JWK_TIME_TO_LIVE R) = Some expiry ->
    Date.valid expiry ->
    Str.all json_plain (string_of_env (AWS_KMS_ROLE_ARN R)) = true ->
    exists input rest instant,
      events (createKMSKey R alg) w = Sent (CreateKeyCommand input) :: rest
      /\ Description input
         = "Developer Portal JWK for Sign in with Worldcoin. Created: "
             ++ Date.iso_text created
      /\ Reader.parse (Policy input)
         = Some (policy_json
                   (mkPolicy (string_of_env (AWS_KMS_ROLE_ARN R))
                      fixed_actions instant))
      /\ Date.parse_iso instant = Some expiry.
Proof.
  intros W R alg w wa wb created today expiry Hc1 Hc2 Hadd Hv Hp.
  pose (input := mkCreateKeyInput alg "SIGN_VERIFY"
            ("Developer Portal JWK for Sign in with Worldcoin. "
               ++ "Created: " ++ Date.iso_text created)
            (policy_template (string_of_env (AWS_KMS_ROLE_ARN R))
               (Date.iso_text expiry))
            [mkTag "app" "developer-portal"]).
  assert (Hev : exists rest,
             events (createKMSKey R alg) w
             = Sent (CreateKeyCommand input) :: rest).
  { unfold events. rewrite create_run, Hc1, Hc2, Hadd.
    unfold kmsKeyPolicy. cbn [toISOString]. cbv zeta.
    unfold create_key_command. fold input.
    destruct (kms_send R wb _) as [w1 [r|e1]]; [|eexists; reflexivity].
    destruct (key_id_of r) as [key_id|]; [|eexists; reflexivity].
    destruct (truthy_string key_id); [|eexists; reflexivity].
    destruct (kms_send R w1 (GetPublicKeyCommand key_id)) as [w2 [r'|e2]];
      eexists; reflexivity. }
  destruct Hev as [rest Hev].
  exists input, rest, (Date.iso_text expiry).
  split; [exact Hev|]. split; [reflexivity|]. split.
  - cbn [Policy input].
    rewrite policy_template_json by (assumption || apply iso_text_plain).
    apply parse_stringify2.
  - now apply parse_iso_text.
Qed.

Lemma create_policy_expiry_witness :
  Date.valid 1707776000000
  /\ exists input rest instant,
      events (createKMSKey (stub client_ok no_store) "RSA_2048") tt
      = Sent (CreateKeyCommand input) :: rest
      /\ Description input
         = "Developer Portal JWK for Sign in with Worldcoin. Created: "
             ++ Date.iso_text 1700000000000
      /\ Reader.parse (Policy input)
         = Some (policy_json
                   (mkPolicy "arn:aws:iam::123456789012:role/kms"
                      fixed_actions instant))
      /\ Date.parse_iso instant = Some 1707776000000.
Proof.
  assert (Hv : Date.valid 1707776000000)
    by (unfold Date.valid, Date.maxTime; lia).
  split; [exact Hv|].
  exact (create_policy_expiry unit (stub client_ok no_store) "RSA_2048"
           tt tt tt 1700000000000 1700000000000 1707776000000
           eq_refl eq_refl eq_refl Hv eq_refl).
Defined.

(** X12. When [dayjs().add(JWK_TIME_TO_LIVE, "day")] is an invalid date,
    [createKMSKey] sends nothing to KMS: the [RangeError] of
    [toISOString] is caught and logged, and the result is [undefined]. *)
Theorem create_invalid_expiry :
  forall (W : Type) (R : Runtime W) (alg : string) (w wa wb : W)
         (created today : Z),
    clock R w = (wa, created) ->
    clock R wa = (wb, today) ->
    dayjs_add_day R today (JWK_TIME_TO_LIVE R) = None ->
    result (createKMSKey R alg) w = Returned None
    /\ commands (events (createKMSKey R alg) w) = []
    /\ logged (events (createKMSKey R alg) w)
       = [("Error creating key:", mkError "RangeError" "Invalid time value")].
Proof.
  intros W R alg w wa wb created today Hc1 Hc2 Hadd.
  unfold result, events. rewrite create_run, Hc1, Hc2, Hadd.
  repeat split.
Qed.

Lemma create_invalid_expiry_witness :
  dayjs_add_day world_invalid_date 1700000000000 90 = None
  /\ result (createKMSKey world_invalid_date "RSA_2048") tt = Returned None
  /\ commands (events (createKMSKey world_invalid_date "RSA_2048") tt) = [].
Proof.
  assert (H := create_invalid_expiry unit world_invalid_date "RSA_2048"
                 tt tt tt 1700000000000 1700000000000
                 eq_refl eq_refl eq_refl).
  split; [reflexivity|]. split; [exact (proj1 H) | exact (proj1 (proj2 H))].
Defined.

(** X13. [createKMSKey] logs at most one error, under
    ["Error creating key:"], and a run that logged one returned no key.
    When CreateKey answers without a key id (or with an empty one), or
    GetPublicKey answers without a [PublicKey], the function returns
    [undefined] and logs nothing; in the first case it does not send
    GetPublicKey. *)
Theorem create_logging :
  forall (W : Type) (R : Runtime W) (alg : string) (w : W),
    let evs := events (createKMSKey R alg) w in
    let res := result (createKMSKey R alg) w in
    (logged evs = []
     \/ exists e, logged evs = [("Error creating key:", e)]
                  /\ res = Returned None)
    /\ (forall wa created wb today policy,
           clock R w = (wa, created) ->
           clock R wa = (wb, today) ->
           kmsKeyPolicy (AWS_KMS_ROLE_ARN R)
             (dayjs_add_day R today (JWK_TIME_TO_LIVE R)) = Returned policy ->
           let cmd := create_key_command alg created policy in
           (forall w1 r,
               kms_send R wb cmd = (w1, Returned r) ->
               key_id_of r = None \/ key_id_of r = Some EmptyString ->
               res = Returned None /\ evs = [Sent cmd])
           /\ (forall w1 r key_id w2 r',
                  kms_send R wb cmd = (w1, Returned r) ->
                  key_id_of r = Some key_id ->
                  key_id <> EmptyString ->
                  kms_send R w1 (GetPublicKeyCommand key_id)
                  = (w2, Returned r') ->
                  PublicKey r' = None ->
                  res = Returned None
                  /\ evs = [Sent cmd; Sent (GetPublicKeyCommand key_id)])).
Proof.
  intros W R alg w evs res. unfold evs, res, events, result.
  rewrite create_run. split.
  - destruct (clock R w) as [wa created].
    destruct (clock R wa) as [wb today].
    destruct (kmsKeyPolicy _ _) as [policy|e0];
      [|right; exists e0; split; reflexivity].
    cbv zeta.
    destruct (kms_send R wb _) as [w1 [r|e1]];
      [|right; exists e1; split; reflexivity].
    destruct (key_id_of r) as [key_id|]; [|left; reflexivity].
    destruct (truthy_string key_id); [|left; reflexivity].
    destruct (kms_send R w1 (GetPublicKeyCommand key_id)) as [w2 [r'|e2]];
      [left; reflexivity | right; exists e2; split; reflexivity].
  - intros wa created wb today policy Hc1 Hc2 Hpol.
    rewrite Hc1, Hc2, Hpol. cbv zeta. split.
    + intros w1 r H [Hid|Hid]; rewrite H, Hid; split; reflexivity.
    + intros w1 r key_id w2 r' H Hid Hne Hget Hpk. rewrite H, Hid.
      destruct key_id as [|c s]; [congruence|]. cbn [truthy_string].
      rewrite Hget. cbn [fst snd trace]. rewrite Hpk. split; reflexivity.
Qed.

Lemma create_logging_witness :
  key_id_of (mkResponse None None None) = None
  /\ result (createKMSKey (stub client_no_key_id no_store) "RSA_2048") tt
     = Returned None
  /\ logged (events (createKMSKey (stub client_no_key_id no_store)
                       "RSA_2048") tt) = [].
Proof.
  split; [reflexivity|].
  assert (H := proj1 (proj2 (create_logging unit
                               (stub client_no_key_id no_store)
                               "RSA_2048" tt)
                        tt 1700000000000 tt 1700000000000
                        (policy_template
                           "arn:aws:iam::123456789012:role/kms"
                           (Date.iso_text 1707776000000))
                        eq_refl eq_refl eq_refl)
                 tt (mkResponse None None None) eq_refl
                 (or_introl eq_refl)).
  split; [exact (proj1 H)|].
  rewrite (proj2 H). reflexivity.
Defined.

Lemma pem_lines (body : string) :
  Str.all is_std_char body = true ->
  Str.split "010" (pem body)
  = ["-----BEGIN PUBLIC KEY-----"; body; "-----END PUBLIC KEY-----"].
Proof.
  intros H.
  assert (Hnl : Str.count "010" body = 0%nat)
    by (apply (all_count_0 is_std_char); auto).
  change (pem body)
    with ("-----BEGIN PUBLIC KEY-----"
            ++ String "010" (body ++ String "010" "-----END PUBLIC KEY-----")).
  rewrite (split_at "010" "-----BEGIN PUBLIC KEY-----" _ eq_refl).
  rewrite (split_at "010" body _ Hnl).
  reflexivity.
Qed.

(** X14. The PEM text [createKMSKey] returns has exactly three lines: the
    header, the footer, and between them the whole base64 body on one
    line of [4 * ((n + 2) / 3)] characters for a public key of [n] bytes;
    the body is never wrapped, so it is longer than 64 characters as soon
    as the key has more than 48 bytes. *)
Theorem create_pem_single_line :
  forall (W : Type) (R : Runtime W) (alg : string) (w : W) (key : CreatedKey),
    result (createKMSKey R alg) w = Returned (Some key) ->
    exists pk w2 w3 r',
      kms_send R w2 (GetPublicKeyCommand (keyId key)) = (w3, Returned r')
      /\ PublicKey r' = Some pk
      /\ Str.split "010" (publicKey key)
         = ["-----BEGIN PUBLIC KEY-----"; Base64.encode pk;
            "-----END PUBLIC KEY-----"]
      /\ String.length (Base64.encode pk)
         = (4 * ((List.length pk + 2) / 3))%nat
      /\ ((48 < List.length pk)%nat ->
          (64 < String.length (Base64.encode pk))%nat).
Proof.
  intros W R alg w key. unfold result. rewrite create_run.
  destruct (clock R w) as [wa created].
  destruct (clock R wa) as [wb today].
  destruct (kmsKeyPolicy _ _) as [policy|e0]; [|discriminate].
  cbv zeta.
  destruct (kms_send R wb _) as [w1 [r|e1]]; [|discriminate].
  destruct (key_id_of r) as [key_id|]; [|discriminate].
  destruct (truthy_string key_id); [|discriminate].
  destruct (kms_send R w1 (GetPublicKeyCommand key_id)) as [w2 [r'|e2]]
    eqn:Hget; [|discriminate].
  cbn [snd]. destruct (PublicKey r') as [pk|] eqn:Hpk; [|discriminate].
  intros H. injection H as <-. cbn [keyId publicKey].
  exists pk, w1, w2, r'.
  split; [exact Hget|]. split; [exact Hpk|].
  split; [apply pem_lines, base64_shape|].
  split; [apply base64_exact_length|].
  intros Hlen. rewrite base64_exact_length.
  assert (17 <= (List.length pk + 2) / 3)%nat; [|lia].
  replace (List.length pk + 2)%nat
    with ((List.length pk - 49) + 17 * 3)%nat by lia.
  rewrite Nat.div_add by lia. lia.
Qed.

Lemma create_pem_single_line_witness :
  result (createKMSKey (stub client_ok no_store) "RSA_2048") tt
  = Returned (Some (mkCreatedKey "abc123" (pem "MIIBIg==")))
  /\ exists pk w2 w3 r',
      kms_send (stub client_ok no_store) w2 (GetPublicKeyCommand "abc123")
      = (w3, Returned r')
      /\ PublicKey r' = Some pk
      /\ Str.split "010" (pem "MIIBIg==")
         = ["-----BEGIN PUBLIC KEY-----"; Base64.encode pk;
            "-----END PUBLIC KEY-----"]
      /\ String.length (Base64.encode pk)
         = (4 * ((List.length pk + 2) / 3))%nat
      /\ ((48 < List.length pk)%nat ->
          (64 < String.length (Base64.encode pk))%nat).
Proof.
  assert (H : result (createKMSKey (stub client_ok no_store) "RSA_2048") tt
              = Returned (Some (mkCreatedKey "abc123" (pem "MIIBIg=="))))
    by (vm_compute; reflexivity).
  split; [exact H|].
  exact (create_pem_single_line unit (stub client_ok no_store) "RSA_2048"
           tt (mkCreatedKey "abc123" (pem "MIIBIg==")) H).
Defined.

(* ================================================================== *)
(** * Properties: the principal in the text of [kmsKeyPolicy] *)
(* ================================================================== *)

Lemma escape_char_length (c : ascii) :
  (1 <= String.length (JSON.escape_char c))%nat
  /\ (json_plain c = false -> (2 <= String.length (JSON.escape_char c))%nat).
Proof.
  destruct c as [[] [] [] [] [] [] [] []]; vm_compute;
    (split; [lia | intros H; first [discriminate H | lia]]).
Qed.

Lemma escape_length (s : string) :
  (String.length s <= String.length (JSON.escape s))%nat
  /\ (Str.all json_plain s = false ->
      (String.length s < String.length (JSON.escape s))%nat).
Proof.
  induction s as [|c s [IHle IHlt]]; cbn [JSON.escape Str.all String.length].
  - split; [lia | discriminate].
  - rewrite length_append.
    destruct (escape_char_length c) as [H1 H2]. split; [lia|].
    destruct (json_plain c); cbn [andb]; intros H.
    + specialize (IHlt H). lia.
    + specialize (H2 eq_refl). lia.
Qed.

Lemma escape_fixed (s : string) :
  JSON.escape s = s -> Str.all json_plain s = true.
Proof.
  intros E. destruct (Str.all json_plain s) eqn:H; [reflexivity|].
  apply (proj2 (escape_length s)) in H. rewrite E in H. lia.
Qed.

Lemma policy_json_text (principal instant : string) :
  JSON.stringify2 (policy_json (mkPolicy principal fixed_actions instant))
  = policy_template (JSON.escape principal) (JSON.escape instant).
Proof.
  unfold JSON.stringify2, policy_json, policy_template.
  cbn.
  repeat (rewrite !append_assoc; cbn).
  reflexivity.
Qed.

(** The template is a fixed text around the principal and the instant. *)
Lemma policy_template_shape :
  exists a b c : string,
    forall principal instant,
      policy_template principal instant
      = a ++ principal ++ b ++ instant ++ c.
Proof.
  unfold policy_template. eexists _, _, _. intros principal instant.
  reflexivity.
Qed.

Lemma policy_template_principal (p q i : string) :
  policy_template p i = policy_template q i -> p = q.
Proof.
  destruct policy_template_shape as (a & b & c & H).
  rewrite !H. intros E.
  apply append_cancel_l in E. now apply append_cancel_r in E.
Qed.

(** X15. [kmsKeyPolicy] writes the role ARN into the policy text as it
    is, without JSON escaping: the text is the two-space JSON text of the
    policy document of that principal exactly when the principal has no
    character JSON escapes (a double quote, a backslash or a control
    character); in every case it is the template filled with the raw
    principal, where the JSON text has the escaped one. *)
Theorem policy_principal_not_escaped :
  forall (arn : option string) (t : Z),
    let principal := string_of_env arn in
    let doc := mkPolicy principal fixed_actions (Date.iso_text t) in
    kmsKeyPolicy arn (Some t)
    = Returned (policy_template principal (Date.iso_text t))
    /\ JSON.stringify2 (policy_json doc)
       = policy_template (JSON.escape principal) (Date.iso_text t)
    /\ (kmsKeyPolicy arn (Some t)
        = Returned (JSON.stringify2 (policy_json doc))
        <-> Str.all json_plain principal = true).
Proof.
  intros arn t principal doc.
  assert (Htext : JSON.stringify2 (policy_json doc)
                  = policy_template (JSON.escape principal)
                      (Date.iso_text t)).
  { unfold doc. rewrite policy_json_text.
    now rewrite (escape_plain (Date.iso_text t) (iso_text_plain t)). }
  split; [reflexivity|]. split; [exact Htext|].
  rewrite Htext. unfold kmsKeyPolicy. cbn [toISOString]. fold principal.
  split.
  - intros E. apply Returned_injective in E.
    apply policy_template_principal in E.
    apply escape_fixed. now symmetry.
  - intros Hp. now rewrite (escape_plain principal Hp).
Qed.

Lemma policy_principal_not_escaped_witness :
  Str.all json_plain (String "a" (String "034" "b")) = false
  /\ kmsKeyPolicy (Some (String "a" (String "034" "b"))) (Some 1707776000000)
     <> Returned
          (JSON.stringify2
             (policy_json
                (mkPolicy (String "a" (String "034" "b")) fixed_actions
                   (Date.iso_text 1707776000000)))).
Proof.
  split; [reflexivity|]. intros E.
  apply (proj1 (proj2 (proj2 (policy_principal_not_escaped
                                (Some (String "a" (String "034" "b")))
                                1707776000000)))) in E.
  discriminate E.
Defined.
